(* ===== verification/_CoqProject ===== *)
-Q . S2P
Prelude.v
PyStr.v
PyPath.v
Errors.v
PyOS.v
Engine.v
FakeEngine.v
Validation.v
SingleFile.v
Documents.v
Images.v
Contract.v
