(* ===== verification/Prelude.v ===== *)
(** * A verification development of PDF-Tool-aspose-pdf

    ** The program

    [src/pdf_tool.py] is one Python module.  It declares three exception
    classes and three check helpers, and exposes five operations that
    validate their arguments and then drive the closed-source
    [aspose.pdf] engine: [compress_pdf], [html_to_pdf], [pdf_to_svg]
    (one output file each), [pdf_to_documents] (dispatching to five
    office converters) and [pdf_to_images] (dispatching to five raster
    converters that write one file per page with exclusive creation).
    Preconditions raise; once the engine is called, every exception is
    caught, printed as ["Error ... <input>: <message>"] and turned into
    [False].  There is no state across calls: an operation's state is
    the file system, the open streams and standard output.

    ** The library, in dependency order

    - [Prelude] (this file): string lemmas, a state and exception monad
      [st S E A = S -> outcome E A * S] with its [let*]/[;;] notation in
      [py_scope] (an exception keeps the side effects before it, as in
      Python), the [preserves] combinators, the [pdf] hint databases and
      the tactics [st_step], [st_unfold], [preserves_auto].
    - [PyStr]: [str.lower], [str.strip], [str(n)], [in] on lists of
      strings, for code points below 256 (CPython's tables).
    - [PyPath]: [os.path.basename], [os.path.splitext], and the pure
      part of [pathlib] ([PurePosixPath] parsing, [str], [/]).
    - [Errors]: the module's exception classes (lines 8-20), the built-in
      exceptions, one constructor for engine failures, and [str(e)].
    - [PyOS]: the world (a [gmap] file system with a working directory,
      the open [FileIO] streams, the printed lines), path resolution,
      [os.path.exists]/[isfile], [io.FileIO(p, 'x')], [write], [close],
      [print]; well-formedness [fs_wf] and lemmas on resolution and on
      writing files.
    - [Engine]: [aspose.pdf] as the class [Aspose.Engine] (document and
      page types, default option objects, load/optimise/save/pages/
      device) with the option records the code fills in, the engine calls
      as operations of the world, and [EngineLaws] (saving keeps the file
      system well formed and changes no entry but its target).
    - [FakeEngine]: two concrete engines and a sample world, used only
      by the witnesses.
    - [Validation]: [path_exists], [is_valid_compression_percentage],
      [is_file] (lines 23-33), the messages, the target sets and the
      normalisation [t.lower().strip()].
    - [SingleFile]: [compress_pdf], [html_to_pdf], [pdf_to_svg]
      (lines 35-88).
    - [Documents]: [pdf_to_doc] .. [pdf_to_pptx], the dispatch and
      [pdf_to_documents] (lines 91-162).
    - [Images]: the page loop shared by [convert_pdf_bmp] ..
      [convert_pdf_gif] (the five bodies differ only in device and
      extension), the dispatch and [pdf_to_images] (lines 165-261).
    - [Contract]: the specification's validation contract
      [spec_validate] and the request dispatcher [run_request].

    Each Python function is a Rocq definition of the same name in the
    monad [PyOS.M]; the whole handler is modelled, guards and early
    returns from the code's conditions, [try ... except Exception] as
    [st_try], [for i in range(n)] as [st_for (seq 0 n)].

    ** What is proved

    - Refinement ([Contract]): a request the contract rejects raises the
      matching exception with the world untouched; a request it accepts
      never raises, whatever the engine does.
    - Frame ([Contract.run_request_frame]): for engines satisfying
      [EngineLaws], no request changes an existing entry of the file
      system other than the one its output file resolves to, on any path;
      [pdf_to_images], creating its pages exclusively, changes none.  Each
      operation's frame lemma sits beside it ([..._frame], [..._keeps]).
    - Invariant: every operation keeps the file system well formed
      ([..._wf] lemmas, from the [preserves] combinators).
    - Functional behaviour once the checks pass, for every engine:
      [compress_pdf] (image compression on, at the given quality),
      [html_to_pdf], [pdf_to_svg] (no zip, target as directory),
      [pdf_to_documents] (one save at [<output>/<stem>.<type>] with the
      target's fixed options; the dispatch never falls through),
      [pdf_to_images] (page [i] written with its rendering, nothing else
      touched, every stream closed).
    - Errors: the quality bound, the type errors carrying the normalised
      value, an existing file accepted as output folder, a taken page
      name stopping the loop with earlier pages kept, a rendering failure
      leaving its stream open.
    - Names: for any input [<dir>/<stem>.<ext>] and an output folder in
      normal form, the office output is [<output>/<stem>.<type>] and page
      [i + 1] goes to [<output>/<stem>_page_<i + 1>_out.<ext>] (proved
      from lemmas on [basename], [splitext] and [pathlib] in [PyPath]);
      the page names of a conversion are pairwise distinct; the jpg
      target writes [.jpeg] (its extension in the page-loop theorems);
      every casing and padding of a valid type normalises to it.
    - A document with no pages: [pdf_to_images] returns [True] and
      writes nothing.

    The page loop is proved by induction on the number of pages done
    ([Images.pages_loop_ok]); it runs over [seq 0 n] and needs no fuel.
    No definition uses fuel except [PyPath.PosixPath.has_non_dot], whose
    fuel is the exact trip count of the [while] loop it models.

    ** Not modelled

    The engine's own behaviour (parsing, rendering, writing formats) is
    an interface; a failed [save] is assumed to leave the file system as
    it was.  The file system has no symbolic links or permissions; the
    [errno] of a failed creation is [ENOENT] or [ENOTDIR] only.  Strings
    are code points below 256.  [print] is a list of lines. *)

From stdpp Require Import base list strings gmap.
From Stdlib Require Import String Ascii ZArith Lia.

(** ** Strings as lists of characters

    Python [str] values are modelled by Stdlib [string].  The few list
    facts the development needs are transported through
    [list_ascii_of_string], which is a bijection. *)

(** [String.append] is [simpl never]: its two equations, as rewrite rules. *)
Lemma string_app_nil_l (s : string) : ("" ++ s)%string = s.
Proof. reflexivity. Qed.

Lemma string_app_cons (c : ascii) (s1 s2 : string) :
  (String c s1 ++ s2)%string = String c (s1 ++ s2)%string.
Proof. reflexivity. Qed.

Lemma list_ascii_of_string_app (s1 s2 : string) :
  list_ascii_of_string (s1 ++ s2)%string
  = list_ascii_of_string s1 ++ list_ascii_of_string s2.
Proof. induction s1 as [|c s1 IH]; [done | rewrite string_app_cons; simpl; by rewrite IH]. Qed.

Lemma list_ascii_of_string_inj (s1 s2 : string) :
  list_ascii_of_string s1 = list_ascii_of_string s2 -> s1 = s2.
Proof.
  intros H. by rewrite <- (string_of_list_ascii_of_string s1), H,
    string_of_list_ascii_of_string.
Qed.

Lemma string_app_assoc (s1 s2 s3 : string) :
  (s1 ++ (s2 ++ s3) = (s1 ++ s2) ++ s3)%string.
Proof. induction s1 as [|c s1 IH]; [done | by rewrite !string_app_cons, IH]. Qed.

Lemma string_app_nil_r (s : string) : (s ++ "")%string = s.
Proof. induction s as [|c s IH]; [done | by rewrite string_app_cons, IH]. Qed.

Lemma string_app_inv_tail (s s1 s2 : string) :
  (s1 ++ s = s2 ++ s)%string -> s1 = s2.
Proof.
  intros H. apply list_ascii_of_string_inj.
  apply (app_inv_tail (list_ascii_of_string s)).
  by rewrite <- !list_ascii_of_string_app, H.
Qed.

Lemma string_app_inv_head (s s1 s2 : string) :
  (s ++ s1 = s ++ s2)%string -> s1 = s2.
Proof. induction s as [|c s IH]; [done | rewrite !string_app_cons; intros H; injection H; auto]. Qed.

Lemma string_eqb_refl' (s : string) : String.eqb s s = true.
Proof. apply String.eqb_refl. Qed.

(** ** Lists *)

Lemma filter_all_true {A} (f : A -> bool) (l : list A) :
  Forall (fun x => f x = true) l -> List.filter f l = l.
Proof. induction 1 as [|x l Hx _ IH]; simpl; [done|]. by rewrite Hx, IH. Qed.

(** ** A state and exception monad

    Python code runs on a mutable world and may raise; an exception keeps
    every side effect performed before it (a file created before the
    raise stays on disk).  Hence [st S E A = S -> outcome E A * S]: the
    state is returned on both the normal and the exceptional path, which
    is not the shape of a [stateT S (sum E)] stack. *)

Inductive outcome (E A : Type) : Type :=
| Normal (a : A)
| Raised (e : E).
Arguments Normal {E A} a.
Arguments Raised {E A} e.

Definition st (S E A : Type) : Type := S -> outcome E A * S.

Section Monad.
Context {S E : Type}.

Definition st_ret {A} (a : A) : st S E A := fun s => (Normal a, s).

Definition st_bind {A B} (m : st S E A) (f : A -> st S E B) : st S E B :=
  fun s =>
    match m s with
    | (Normal a, s') => f a s'
    | (Raised e, s') => (Raised e, s')
    end.

Definition st_raise {A} (e : E) : st S E A := fun s => (Raised e, s).

(** [try: m  except Exception as e: h e] *)
Definition st_try {A} (m : st S E A) (h : E -> st S E A) : st S E A :=
  fun s =>
    match m s with
    | (Normal a, s') => (Normal a, s')
    | (Raised e, s') => h e s'
    end.

Definition st_get : st S E S := fun s => (Normal s, s).
Definition st_put (s : S) : st S E unit := fun _ => (Normal tt, s).
Definition st_modify (f : S -> S) : st S E unit := fun s => (Normal tt, f s).

(** Lift a fallible pure result into the monad. *)
Definition st_lift {A X} (conv : X -> E) (r : A + X) : st S E A :=
  match r with inl a => st_ret a | inr x => st_raise (conv x) end.

(** [for x in l: body x] *)
Fixpoint st_for {A} (l : list A) (body : A -> st S E unit) : st S E unit :=
  match l with
  | [] => st_ret tt
  | x :: l' => st_bind (body x) (fun _ => st_for l' body)
  end.
End Monad.

Declare Scope py_scope.
Delimit Scope py_scope with py.
Notation "'let*' x ':=' m 'in' k" := (st_bind m (fun x => k))
  (at level 10, x name, m at level 100, k at level 200) : py_scope.
Notation "m ;; k" := (st_bind m (fun _ => k))
  (at level 100, k at level 200, right associativity) : py_scope.

(** ** Running the monad *)

Section Run.
Context {S E : Type}.

Lemma st_bind_normal {A B} (m : st S E A) (f : A -> st S E B) s a s' :
  m s = (Normal a, s') -> st_bind m f s = f a s'.
Proof. intros H. unfold st_bind. by rewrite H. Qed.

Lemma st_bind_raised {A B} (m : st S E A) (f : A -> st S E B) s e s' :
  m s = (Raised e, s') -> st_bind m f s = (Raised e, s').
Proof. intros H. unfold st_bind. by rewrite H. Qed.

Lemma st_try_normal {A} (m : st S E A) h s a s' :
  m s = (Normal a, s') -> st_try m h s = (Normal a, s').
Proof. intros H. unfold st_try. by rewrite H. Qed.

Lemma st_try_raised {A} (m : st S E A) h s e s' :
  m s = (Raised e, s') -> st_try m h s = h e s'.
Proof. intros H. unfold st_try. by rewrite H. Qed.

(** A computation that never raises. *)
Definition no_raise {A} (m : st S E A) : Prop :=
  forall s, exists a s', m s = (Normal a, s').

(** A computation preserves a predicate on the state, on both paths. *)
Definition preserves {A} (P : S -> Prop) (m : st S E A) : Prop :=
  forall s, P s -> P (snd (m s)).

Lemma preserves_ret {A} P (a : A) : preserves P (st_ret a).
Proof. by intros s. Qed.

Lemma preserves_raise {A} P e : preserves P (@st_raise S E A e).
Proof. by intros s. Qed.

Lemma preserves_get P : preserves P st_get.
Proof. by intros s. Qed.

Lemma preserves_bind {A B} P (m : st S E A) (f : A -> st S E B) :
  preserves P m -> (forall a, preserves P (f a)) -> preserves P (st_bind m f).
Proof.
  intros Hm Hf s Hs. specialize (Hm s Hs). unfold st_bind.
  destruct (m s) as [[a|e] s']; simpl in *; auto. by apply Hf.
Qed.

Lemma preserves_try {A} P (m : st S E A) h :
  preserves P m -> (forall e, preserves P (h e)) -> preserves P (st_try m h).
Proof.
  intros Hm Hh s Hs. specialize (Hm s Hs). unfold st_try.
  destruct (m s) as [[a|e] s']; simpl in *; auto. by apply Hh.
Qed.

Lemma preserves_lift {A X} P conv (r : A + X) : preserves P (st_lift conv r).
Proof. by destruct r; intros s. Qed.

Lemma preserves_for {A} P (l : list A) body :
  (forall x, preserves P (body x)) -> preserves P (st_for l body).
Proof.
  intros Hb. induction l as [|x l IH]; simpl.
  - apply preserves_ret.
  - apply preserves_bind; auto.
Qed.

Lemma st_for_app {A} (l1 l2 : list A) (body : A -> st S E unit) (s : S) :
  st_for (l1 ++ l2) body s = st_bind (st_for l1 body) (fun _ => st_for l2 body) s.
Proof.
  revert s. induction l1 as [|x l1 IH]; intros s; simpl; [done|].
  unfold st_bind. destruct (body x s) as [[[]|e] s']; [|done]. rewrite IH. by unfold st_bind.
Qed.

Lemma no_raise_try {A} (m : st S E A) h :
  (forall e, no_raise (h e)) -> no_raise (st_try m h).
Proof.
  intros Hh s. unfold st_try. destruct (m s) as [[a|e] s']; [eauto | apply Hh].
Qed.
End Run.

Create HintDb pdf.
Create Rewrite HintDb pdf_rw.
#[export] Hint Resolve preserves_ret preserves_raise preserves_get preserves_bind
  preserves_try preserves_lift preserves_for : pdf.
#[export] Hint Rewrite string_app_nil_l string_app_cons string_app_nil_r : pdf_rw.

(** Reduce the monad plumbing and boolean tests of a run without
    unfolding anything else. *)
Ltac st_step :=
  cbv beta iota zeta delta [st_bind st_ret st_raise st_try st_get st_put st_modify
    st_lift negb].

(** Prove [preserves P m] by following the structure of [m]; the leaves
    are closed by the [pdf] hints. *)
Ltac preserves_auto :=
  repeat first
    [ solve [eauto with pdf]
    | apply preserves_ret | apply preserves_raise | apply preserves_get
    | apply preserves_lift
    | apply preserves_bind; [|intros ?]
    | apply preserves_try; [|intros ?]
    | apply preserves_for; intros ?
    | match goal with |- preserves _ (if ?b then _ else _) => destruct b end
    | match goal with |- preserves _ (match ?x with _ => _ end) => destruct x end ].

(** Unfold the monad plumbing of a concrete run. *)
Ltac st_unfold :=
  unfold st_bind, st_ret, st_raise, st_try, st_get, st_put, st_modify, st_lift in *.
