(* ===== verification/PyStr.v ===== *)
(** * Python [str] operations used by [src/pdf_tool.py]

    [str.lower], [str.strip], [str(n)] on integers, [==] and [x in list].
    A character is a code point below 256 (Stdlib [ascii] is eight bits,
    read as Latin-1); [lower] and [is_space] follow CPython's Unicode tables
    on that range.  These are library operations, not code of the
    repository: they are modelled from CPython's documented behaviour. *)

From stdpp Require Import base list strings.
From Stdlib Require Import String Ascii ZArith Lia DecimalString DecimalNat DecimalZ.
From S2P Require Import Prelude.

Module PyStr.
Local Open Scope N_scope.

(** [c.isspace()] for [ord(c) < 256]: [\t\n\v\f\r], [\x1c]-[\x1f], space,
    [\x85] and [\xa0]. *)
Definition is_space (c : ascii) : bool :=
  let n := N_of_ascii c in
  ((9 <=? n) && (n <=? 13)) || ((28 <=? n) && (n <=? 32))
  || (n =? 133) || (n =? 160).

(** [c.lower()] for [ord(c) < 256]: [A]-[Z] and the Latin-1 capitals
    [\xc0]-[\xd6], [\xd8]-[\xde] move down by 32; nothing else changes. *)
Definition is_upper (c : ascii) : bool :=
  let n := N_of_ascii c in
  ((65 <=? n) && (n <=? 90)) || ((192 <=? n) && (n <=? 214))
  || ((216 <=? n) && (n <=? 222)).

Definition lower_char (c : ascii) : ascii :=
  if is_upper c then ascii_of_N (N_of_ascii c + 32) else c.

Local Close Scope N_scope.

Fixpoint lower (s : string) : string :=
  match s with
  | EmptyString => EmptyString
  | String c s' => String (lower_char c) (lower s')
  end.

Fixpoint lstrip (s : string) : string :=
  match s with
  | EmptyString => EmptyString
  | String c s' => if is_space c then lstrip s' else s
  end.

Fixpoint rstrip (s : string) : string :=
  match s with
  | EmptyString => EmptyString
  | String c s' =>
      let r := rstrip s' in
      if is_space c && String.eqb r "" then EmptyString else String c r
  end.

(** [s.strip()]: [s[i:j]] with [i] the first and [j - 1] the last
    non-space index. *)
Definition strip (s : string) : string := rstrip (lstrip s).

(** [x in l] on a list of strings. *)
Definition str_in (x : string) (l : list string) : bool :=
  existsb (String.eqb x) l.

(** [str(n)] for a Python [int]. *)
Definition str_of_nat (n : nat) : string :=
  NilEmpty.string_of_uint (Nat.to_uint n).
Definition str_of_Z (z : Z) : string :=
  NilEmpty.string_of_int (Z.to_int z).

(** A string made of whitespace only. *)
Fixpoint all_space (s : string) : bool :=
  match s with
  | EmptyString => true
  | String c s' => is_space c && all_space s'
  end.

(** ** Lemmas *)

Lemma lower_app (s1 s2 : string) :
  lower (s1 ++ s2) = (lower s1 ++ lower s2)%string.
Proof. induction s1 as [|c s1 IH]; [done|]. rewrite ?string_app_cons; simpl. by rewrite IH. Qed.

Lemma space_not_upper (c : ascii) : is_space c = true -> is_upper c = false.
Proof.
  unfold is_space, is_upper. generalize (N_of_ascii c) as n. intros n.
  rewrite !orb_true_iff, !andb_true_iff, !N.leb_le, !N.eqb_eq.
  intros H. apply not_true_is_false. rewrite !orb_true_iff, !andb_true_iff, !N.leb_le.
  lia.
Qed.

Lemma lower_all_space (w : string) : all_space w = true -> lower w = w.
Proof.
  induction w as [|c w IH]; simpl; [done|]. rewrite andb_true_iff.
  intros [Hc Hw]. unfold lower_char. by rewrite space_not_upper, IH.
Qed.

Lemma lstrip_all_space_app (w s : string) :
  all_space w = true -> lstrip (w ++ s) = lstrip s.
Proof.
  induction w as [|c w IH]; simpl; [done|]. rewrite andb_true_iff.
  intros [Hc Hw]. rewrite ?string_app_cons; simpl. rewrite Hc. auto.
Qed.

Lemma rstrip_all_space (w : string) : all_space w = true -> rstrip w = "".
Proof.
  induction w as [|c w IH]; simpl; [done|]. rewrite andb_true_iff.
  intros [Hc Hw]. by rewrite IH, Hc.
Qed.

Lemma rstrip_eq_nil_all_space (s : string) : rstrip s = "" -> all_space s = true.
Proof.
  induction s as [|c s IH]; simpl; [done|].
  destruct (is_space c && String.eqb (rstrip s) "") eqn:E; [|done].
  rewrite andb_true_iff, String.eqb_eq in E. destruct E as [Hc Hs]. intros _. rewrite Hc. auto.
Qed.

Lemma all_space_app (s1 s2 : string) :
  all_space (s1 ++ s2) = all_space s1 && all_space s2.
Proof.
  induction s1 as [|c s1 IH]; [done|]. rewrite ?string_app_cons; simpl.
  by rewrite IH, andb_assoc.
Qed.

(** [rstrip] drops trailing whitespace after a part that does not
    strip to nothing. *)
Lemma rstrip_app_space (s w : string) :
  all_space w = true -> rstrip s <> "" -> rstrip (s ++ w) = rstrip s.
Proof.
  intros Hw. induction s as [|c s IH]; [done|].
  rewrite ?string_app_cons; simpl. intros _.
  destruct (decide (rstrip s = "")) as [E|E].
  - rewrite E, (rstrip_all_space (s ++ w)); [done|].
    rewrite all_space_app, Hw, andb_true_r. by apply rstrip_eq_nil_all_space.
  - by rewrite IH.
Qed.

Lemma rstrip_app_space' (s w : string) :
  all_space w = true -> rstrip s = s -> s <> "" -> rstrip (s ++ w) = s.
Proof. intros Hw Hs Hne. rewrite rstrip_app_space; congruence. Qed.

(** Stripping whitespace padding around a trimmed string gives it back. *)
Lemma strip_pad (w1 s w2 : string) :
  all_space w1 = true -> all_space w2 = true ->
  lstrip s = s -> rstrip s = s -> s <> "" ->
  strip (w1 ++ s ++ w2) = s.
Proof.
  intros H1 H2 Hl Hr Hne. unfold strip.
  rewrite lstrip_all_space_app by done.
  destruct s as [|c s]; [done|].
  rewrite ?string_app_cons. simpl in Hl |- *.
  destruct (is_space c) eqn:Ec.
  - exfalso. assert (Hlen := f_equal String.length Hl).
    destruct s as [|d s']; simpl in Hl.
    + discriminate.
    + clear -Hlen. revert Hlen. generalize (String d s') as t. intros t.
      assert (forall u : string, String.length (lstrip u) <= String.length u).
      { induction u as [|e u IH]; simpl; [lia|]. destruct (is_space e); simpl; lia. }
      specialize (H t). simpl in *. lia.
  - rewrite <- string_app_cons. by apply rstrip_app_space'.
Qed.

Lemma str_of_nat_inj (n m : nat) : str_of_nat n = str_of_nat m -> n = m.
Proof.
  unfold str_of_nat. intros H.
  apply (f_equal NilEmpty.uint_of_string) in H. rewrite !NilEmpty.usu in H.
  apply Unsigned.to_uint_inj. congruence.
Qed.

Lemma str_in_spec (x : string) (l : list string) : str_in x l = true <-> x ∈ l.
Proof.
  unfold str_in. rewrite existsb_exists, list_elem_of_In. split.
  - intros (y & Hy & E). apply String.eqb_eq in E. by subst.
  - intros H. exists x. by rewrite String.eqb_refl.
Qed.

End PyStr.

#[export] Hint Resolve PyStr.lower_all_space PyStr.rstrip_all_space : pdf.
