(* ===== verification/PyPath.v ===== *)
(** * The path functions [src/pdf_tool.py] calls

    [os.path.basename] and [os.path.splitext] (CPython's [posixpath] and
    [genericpath._splitext]) and the pure part of [pathlib.Path]: parsing a
    path string into a root and parts, [str(path)] and [path / name].
    These are library functions, modelled from CPython's source; the
    output-path resolution of [pdf_to_documents] and [pdf_to_images] is
    built from them. *)

From stdpp Require Import base list strings.
From Stdlib Require Import String Ascii Lia.
From S2P Require Import Prelude PyStr.

Module PosixPath.

Definition slash : ascii := "/".
Definition dot : ascii := ".".

(** [s.split(c)] for a one-character separator: never empty,
    ["".split("/") = [""]]. *)
Fixpoint split_on (c : ascii) (s : string) : list string :=
  match s with
  | EmptyString => [""%string]
  | String d s' =>
      let rest := split_on c s' in
      if Ascii.eqb d c then ""%string :: rest
      else match rest with
           | r :: rs => String d r :: rs
           | [] => [String d ""]
           end
  end.

(** [sep.join(l)] *)
Fixpoint join_with (sep : string) (l : list string) : string :=
  match l with
  | [] => ""
  | [x] => x
  | x :: l' => (x ++ sep ++ join_with sep l')%string
  end.

(** [s.rfind(c)]: the last index of [c], [None] standing for [-1]. *)
Fixpoint rfind_from (c : ascii) (s : string) (i : nat) (acc : option nat)
  : option nat :=
  match s with
  | EmptyString => acc
  | String d s' => rfind_from c s' (S i) (if Ascii.eqb c d then Some i else acc)
  end.
Definition rfind (c : ascii) (s : string) : option nat := rfind_from c s 0 None.

(** [p[i:]] *)
Definition drop_from (i : nat) (p : string) : string :=
  substring i (String.length p - i) p.

(** [posixpath.basename]: [i = p.rfind('/') + 1; return p[i:]]. *)
Definition basename (p : string) : string :=
  let i := match rfind slash p with Some k => S k | None => 0 end in
  drop_from i p.

(** The [while filenameIndex < dotIndex] loop of [_splitext]: whether
    some index in [[k, k + fuel)] holds a character other than ['.'].
    It runs exactly [dotIndex - filenameIndex] times. *)
Fixpoint has_non_dot (p : string) (k fuel : nat) : bool :=
  match fuel with
  | 0 => false
  | S f =>
      match String.get k p with
      | Some c => if Ascii.eqb c dot then has_non_dot p (S k) f else true
      | None => true
      end
  end.

(** [genericpath._splitext(p, '/', None, '.')] *)
Definition splitext (p : string) : string * string :=
  let sepIndex := rfind slash p in
  let fi := match sepIndex with Some s => S s | None => 0 end in
  match rfind dot p with
  | Some d =>
      if (fi <=? d) && has_non_dot p fi (d - fi)
      then (substring 0 d p, drop_from d p)
      else (p, ""%string)
  | None => (p, ""%string)
  end.

(** ** Lemmas *)

Fixpoint has_char (c : ascii) (s : string) : bool :=
  match s with
  | EmptyString => false
  | String d s' => Ascii.eqb d c || has_char c s'
  end.

Lemma has_char_app (c : ascii) (a b : string) :
  has_char c (a ++ b) = has_char c a || has_char c b.
Proof.
  induction a as [|d a IH]; [by rewrite string_app_nil_l|]. rewrite string_app_cons. simpl.
  by rewrite IH, orb_assoc.
Qed.

Lemma split_on_no_char (c : ascii) (s : string) :
  has_char c s = false -> split_on c s = [s].
Proof.
  induction s as [|d s IH]; simpl; [done|].
  rewrite orb_false_iff. intros [Hd Hs]. by rewrite Hd, IH.
Qed.

Lemma split_on_app_sep (c : ascii) (x s : string) :
  has_char c x = false ->
  split_on c (x ++ String c s) = x :: split_on c s.
Proof.
  induction x as [|d x IH]; simpl.
  - intros _. by rewrite Ascii.eqb_refl.
  - rewrite orb_false_iff. intros [Hd Hx].
    rewrite ?string_app_cons; simpl. by rewrite Hd, IH.
Qed.

Lemma join_with_cons2 (sep x y : string) (l : list string) :
  join_with sep (x :: y :: l) = (x ++ sep ++ join_with sep (y :: l))%string.
Proof. reflexivity. Qed.

(** Round trip: splitting a join on a separator absent from the parts
    gives the parts back. *)
Lemma split_on_join (c : ascii) (l : list string) :
  l <> [] -> Forall (fun x => has_char c x = false) l ->
  split_on c (join_with (String c "") l) = l.
Proof.
  intros Hne Hl. induction Hl as [|x l Hx Hl IH]; [done|].
  destruct l as [|y l].
  - by apply split_on_no_char.
  - rewrite join_with_cons2, string_app_cons, string_app_nil_l, split_on_app_sep by done.
    rewrite IH; [done|congruence].
Qed.

(** ** [basename] and [splitext] on a path built from its pieces *)

Lemma string_length_app (a b : string) :
  String.length (a ++ b) = String.length a + String.length b.
Proof.
  induction a as [|c a IH]; [by rewrite string_app_nil_l|].
  rewrite string_app_cons. simpl. by rewrite IH.
Qed.

Lemma substring_all (s : string) : substring 0 (String.length s) s = s.
Proof. induction s as [|c s IH]; [done|]. simpl. by rewrite IH. Qed.

Lemma substring_app_l (a b : string) : substring 0 (String.length a) (a ++ b) = a.
Proof.
  induction a as [|c a IH]; [rewrite string_app_nil_l; by destruct b|].
  rewrite string_app_cons. simpl. by rewrite IH.
Qed.

Lemma substring_app_r (a b : string) (m : nat) :
  substring (String.length a) m (a ++ b) = substring 0 m b.
Proof. induction a as [|c a IH]; [by rewrite string_app_nil_l|]. by rewrite string_app_cons. Qed.

(** [(a + b)[len(a):] = b] *)
Lemma drop_from_app (a b : string) : drop_from (String.length a) (a ++ b) = b.
Proof.
  unfold drop_from. rewrite substring_app_r, string_length_app.
  replace (String.length a + String.length b - String.length a) with (String.length b) by lia.
  apply substring_all.
Qed.

Lemma rfind_from_app (c : ascii) (a b : string) (i : nat) (acc : option nat) :
  rfind_from c (a ++ b) i acc = rfind_from c b (i + String.length a) (rfind_from c a i acc).
Proof.
  revert i acc. induction a as [|d a IH]; intros i acc; simpl;
    [by rewrite string_app_nil_l, Nat.add_0_r|].
  rewrite ?string_app_cons. simpl. rewrite IH. by rewrite Nat.add_succ_r.
Qed.

Lemma rfind_from_absent (c : ascii) (s : string) (i : nat) (acc : option nat) :
  has_char c s = false -> rfind_from c s i acc = acc.
Proof.
  revert i acc. induction s as [|d s IH]; intros i acc; simpl; [done|].
  rewrite orb_false_iff, Ascii.eqb_sym. intros [-> Hs]. by apply IH.
Qed.

(** The last [c] of [a ++ c ++ b], when [b] has none, is at [len(a)]. *)
Lemma rfind_last (c : ascii) (a b : string) :
  has_char c b = false -> rfind c (a ++ String c b) = Some (String.length a).
Proof.
  intros Hb. unfold rfind. rewrite rfind_from_app. simpl.
  rewrite Ascii.eqb_refl. by apply rfind_from_absent.
Qed.

Lemma rfind_absent (c : ascii) (s : string) : has_char c s = false -> rfind c s = None.
Proof. apply rfind_from_absent. Qed.

(** [basename] keeps what follows the last slash. *)
Lemma basename_app_slash (dir name : string) :
  has_char slash name = false -> basename (dir ++ String slash name) = name.
Proof.
  intros Hn. unfold basename. rewrite rfind_last by done.
  replace (dir ++ String slash name)%string with ((dir ++ "/") ++ name)%string
    by (by rewrite <- string_app_assoc).
  replace (S (String.length dir)) with (String.length (dir ++ "/")) by
    (rewrite string_length_app; simpl; lia).
  apply drop_from_app.
Qed.

Lemma basename_no_slash (name : string) :
  has_char slash name = false -> basename name = name.
Proof.
  intros Hn. unfold basename, drop_from. rewrite rfind_absent, Nat.sub_0_r by done.
  apply substring_all.
Qed.

Lemma has_non_dot_app (a b : string) (k fuel : nat) :
  k + fuel <= String.length a -> has_non_dot (a ++ b) k fuel = has_non_dot a k fuel.
Proof.
  revert k. induction fuel as [|f IH]; intros k Hk; [done|]. simpl.
  rewrite <- (append_correct1 a b k) by lia.
  destruct (String.get k a); [|done]. case_match; [|done]. apply IH. lia.
Qed.

(** [splitext] of a slash-free [stem + "." + ext], where [ext] has no
    dot and [stem] some character other than a dot, splits at that dot. *)
Lemma splitext_stem_ext (stem ext : string) :
  has_char slash stem = false -> has_char slash ext = false -> has_char dot ext = false ->
  has_non_dot stem 0 (String.length stem) = true ->
  splitext (stem ++ String dot ext) = (stem, String dot ext).
Proof.
  intros Hs He Hd Hnd. unfold splitext.
  assert (Hp : has_char slash (stem ++ String dot ext) = false)
    by (rewrite has_char_app, Hs; simpl; by rewrite He).
  rewrite (rfind_absent slash _ Hp).
  rewrite rfind_last by done. simpl. rewrite Nat.sub_0_r.
  rewrite has_non_dot_app, Hnd by lia. simpl.
  by rewrite substring_app_l, drop_from_app.
Qed.

(** The file stem [os.path.splitext(os.path.basename(p))[0]] of a path
    [dir + "/" + stem + "." + ext]. *)
Lemma splitext_basename (dir stem ext : string) :
  has_char slash stem = false -> has_non_dot stem 0 (String.length stem) = true ->
  has_char slash ext = false -> has_char dot ext = false ->
  splitext (basename (dir ++ "/" ++ stem ++ "." ++ ext)) = (stem, "." ++ ext)%string.
Proof.
  intros Hs Hnd He Hd. rewrite !string_app_cons, !string_app_nil_l.
  rewrite basename_app_slash by (rewrite has_char_app, Hs; simpl; by rewrite He).
  by apply splitext_stem_ext.
Qed.

End PosixPath.

Module PurePath.
Import PosixPath.

(** A [PurePosixPath]: its root ([""], ["/"] or ["//"]) and its parts. *)
Record t := mk { root : string; parts : list string }.

Fixpoint lstrip_slash (s : string) : string :=
  match s with
  | String c s' => if Ascii.eqb c slash then lstrip_slash s' else s
  | EmptyString => EmptyString
  end.

(** [posixpath.splitroot] without the drive: exactly two leading slashes
    are kept, one or three and more collapse to ["/"]. *)
Definition splitroot (p : string) : string * string :=
  match p with
  | String c1 r1 =>
      if Ascii.eqb c1 slash then
        match r1 with
        | String c2 r2 =>
            if Ascii.eqb c2 slash then
              match r2 with
              | String c3 _ =>
                  if Ascii.eqb c3 slash then ("/"%string, lstrip_slash p)
                  else ("//"%string, r2)
              | EmptyString => ("//"%string, r2)
              end
            else ("/"%string, lstrip_slash p)
        | EmptyString => ("/"%string, lstrip_slash p)
        end
      else (""%string, p)
  | EmptyString => (""%string, p)
  end.

Definition keep_part (x : string) : bool :=
  negb (String.eqb x "") && negb (String.eqb x ".").

(** [PurePosixPath(s)]: [[x for x in rel.split('/') if x and x != '.']]. *)
Definition parse (s : string) : t :=
  let '(r, rel) := splitroot s in
  mk r (List.filter keep_part (split_on slash rel)).

(** [str(path)] *)
Definition to_str (p : t) : string :=
  if String.eqb (root p) "" then
    match parts p with
    | [] => "."
    | ps => join_with "/" ps
    end
  else (root p ++ join_with "/" (parts p))%string.

(** [path / name] *)
Definition div (p : t) (name : string) : t :=
  let q := parse name in
  if String.eqb (root q) "" then mk (root p) (parts p ++ parts q) else q.

(** A part as [str.split] and the filter keep it: no slash, not empty,
    not ["."]. *)
Definition simple_name (x : string) : bool :=
  negb (has_char slash x) && keep_part x.

Lemma parse_simple_name (x : string) :
  simple_name x = true -> parse x = mk "" [x].
Proof.
  unfold simple_name. rewrite andb_true_iff, negb_true_iff. intros [Hs Hk].
  unfold parse. destruct x as [|c x]; [done|].
  simpl in Hs. apply orb_false_iff in Hs as [Hc Hs].
  assert (Hc' : Ascii.eqb c slash = false) by done.
  simpl splitroot. rewrite Hc'.
  rewrite (split_on_no_char slash (String c x)) by (simpl; by rewrite Hc).
  simpl. by rewrite Hk.
Qed.

Lemma join_with_snoc (l : list string) (x : string) :
  l <> [] -> join_with "/" (l ++ [x]) = (join_with "/" l ++ "/" ++ x)%string.
Proof.
  induction l as [|y l IH]; [done|]. intros _.
  destruct l as [|z l]; [done|].
  change ((y :: z :: l) ++ [x]) with (y :: z :: (l ++ [x])).
  rewrite !join_with_cons2. change (z :: l ++ [x]) with ((z :: l) ++ [x]).
  rewrite IH by done. by rewrite <- !string_app_assoc.
Qed.

Lemma simple_name_dotted (stem x : string) :
  has_char slash stem = false -> stem <> ""%string -> has_char slash x = false ->
  simple_name (stem ++ "." ++ x) = true.
Proof.
  intros Hs Hne Hx. destruct stem as [|c r]; [done|].
  unfold simple_name, keep_part. rewrite !has_char_app, Hs, Hx.
  rewrite !string_app_cons, string_app_nil_l. simpl.
  destruct (c =? ".")%char; [|done].
  destruct r; [by rewrite string_app_nil_l | by rewrite string_app_cons].
Qed.

Lemma simple_name_stem (stem : string) :
  has_char slash stem = false -> has_non_dot stem 0 (String.length stem) = true ->
  simple_name stem = true.
Proof.
  intros Hs Hnd. unfold simple_name, keep_part. rewrite Hs. simpl.
  destruct (String.eqb_spec stem ""); [by subst|].
  destruct (String.eqb_spec stem "."); [by subst|]. done.
Qed.

Lemma has_non_dot_nonempty (stem : string) :
  has_non_dot stem 0 (String.length stem) = true -> stem <> ""%string.
Proof. by intros H ->. Qed.

(** [str(Path(d) / name)] for an absolute directory written in normal
    form ["/" + "/".join(comps)] and a simple file name: the two joined
    by one slash. *)
Lemma div_to_str_normal (comps : list string) (name : string) :
  comps <> [] -> Forall (fun x => simple_name x = true) comps ->
  simple_name name = true ->
  to_str (div (parse ("/" ++ join_with "/" comps)) name)
  = ("/" ++ join_with "/" comps ++ "/" ++ name)%string.
Proof.
  intros Hne Hc Hn.
  assert (Hsplit : split_on slash (join_with "/" comps) = comps).
  { apply split_on_join; [done|]. eapply Forall_impl; [exact Hc|].
    intros x Hx. unfold simple_name in Hx. apply andb_true_iff in Hx as [Hx _].
    by apply negb_true_iff. }
  assert (Hfilt : List.filter keep_part comps = comps).
  { apply filter_all_true. eapply Forall_impl; [exact Hc|].
    intros x Hx. unfold simple_name in Hx. by apply andb_true_iff in Hx as [_ Hx]. }
  assert (Hhead : exists c r, join_with "/" comps = String c r /\ Ascii.eqb c slash = false).
  { destruct comps as [|x l]; [done|]. inversion Hc as [|? ? Hx _]; subst.
    unfold simple_name in Hx. apply andb_true_iff in Hx as [Hx Hk].
    destruct x as [|c r]; [done|]. simpl in Hx.
    apply negb_true_iff, orb_false_iff in Hx as [Hc0 _].
    destruct l; simpl; eexists c, _; rewrite ?string_app_cons; split; eauto. }
  destruct Hhead as (c & r & Hj & Hcs).
  unfold div. rewrite parse_simple_name by done.
  unfold parse. rewrite string_app_cons, string_app_nil_l, Hj.
  simpl splitroot. rewrite Hcs. simpl lstrip_slash.
  rewrite <- Hj, Hsplit, Hfilt. unfold to_str. simpl.
  rewrite join_with_snoc by done. by rewrite string_app_cons, string_app_nil_l.
Qed.

End PurePath.
