(* ===== verification/Errors.v ===== *)
(** * Exceptions raised by or through [src/pdf_tool.py]

    The three exception classes the module declares (lines 8-20), the
    built-in exceptions its code raises or meets ([FileExistsError],
    [NotADirectoryError], the [OSError]s of [io.FileIO], [IndexError]),
    and one constructor for every exception raised inside the opaque
    [aspose.pdf] engine.  [exc_str] is [str(e)], which the handlers print. *)

From stdpp Require Import base list strings.
From Stdlib Require Import String Ascii ZArith.
From S2P Require Import Prelude PyStr.

Module Errors.

Inductive exn : Type :=
| FileExistsError (msg : string)
| FileNotFoundError (msg : string)
| NotADirectoryError (msg : string)
| IndexError (msg : string)
| EngineError (msg : string)
| InvalidPercentageError (percentage : Z)
| InvalidDocTypeError (doc_type : string)
| InvalidImgTypeError (img_type : string).

#[export] Instance exn_eq_dec : EqDecision exn.
Proof. solve_decision. Qed.

(** The double quote, spelled as a character. *)
Definition dq : string := String (ascii_of_nat 34) EmptyString.
Definition quoted (s : string) : string := (dq ++ s ++ dq)%string.

(** [str(e)]: the message given to [super().__init__] for the module's
    own classes, the message of the built-in ones. *)
Definition exc_str (e : exn) : string :=
  match e with
  | FileExistsError m | FileNotFoundError m | NotADirectoryError m
  | IndexError m | EngineError m => m
  | InvalidPercentageError p =>
      "Invalid compression percentage: " ++ PyStr.str_of_Z p
      ++ ". Please enter a value between 0 and 100."
  | InvalidDocTypeError d =>
      "Invalid document type: " ++ d ++ ". Valid documents: ["
      ++ quoted "doc" ++ ", " ++ quoted "docx" ++ ", " ++ quoted "xls" ++ ", "
      ++ quoted "xlsx" ++ ", " ++ quoted "pptx" ++ "]."
  | InvalidImgTypeError d =>
      "Invalid image type: " ++ d ++ ". Valid images: ["
      ++ quoted "bmp" ++ ", " ++ quoted "emf" ++ ", " ++ quoted "jpg" ++ ", "
      ++ quoted "png" ++ ", " ++ quoted "gif" ++ "]."
  end%string.

End Errors.
