(* ===== verification/PyOS.v ===== *)
(** * The operating-system surface [src/pdf_tool.py] touches

    The world the program runs in: a file system (a [gmap] from absolute
    paths, as lists of components, to files and directories, with a current
    directory), the streams [io.FileIO] has open, and the lines [print] has
    written.  Operations: [os.path.exists], [os.path.isfile], [io.FileIO]
    in mode ['x'], [write], [close], [print].  They are the Python runtime,
    not code of the repository, and are modelled from its documented
    behaviour: paths resolve component by component, [""] and ["."] stay,
    [".."] goes to the parent, every component followed by another must
    be a directory (so a trailing slash demands a directory); symbolic
    links and permissions are not modelled. *)

From stdpp Require Import base list strings gmap.
From Stdlib Require Import String Ascii ZArith.
From Stdlib Require Import Init.Byte.
From S2P Require Import Prelude PyStr PyPath Errors.

Module PyOS.
Import Errors.

Inductive node : Type :=
| File (data : list byte)
| Dir.

Record fs : Type := mkFS {
  cwd : list string;
  nodes : gmap (list string) node
}.

Record world : Type := mkWorld {
  w_fs : fs;
  w_open : list (list string);   (** paths of the open [FileIO] streams *)
  w_stdout : list string         (** lines written by [print] *)
}.

Definition M (A : Type) : Type := st world exn A.

Definition set_fs (w : world) (f : fs) : world :=
  mkWorld f (w_open w) (w_stdout w).

(** ** Path resolution *)

Inductive errno : Type := ENOENT | ENOTDIR.

Fixpoint walk (ns : gmap (list string) node) (cur : list string)
    (cs : list string) : list string + errno :=
  match cs with
  | [] => inl cur
  | c :: rest =>
      if String.eqb c "" || String.eqb c "." then walk ns cur rest
      else if String.eqb c ".." then walk ns (removelast cur) rest
      else
        let nxt := cur ++ [c] in
        match rest with
        | [] => inl nxt
        | _ =>
            match ns !! nxt with
            | Some Dir => walk ns nxt rest
            | Some (File _) => inr ENOTDIR
            | None => inr ENOENT
            end
        end
  end.

Definition resolve (f : fs) (p : string) : list string + errno :=
  match p with
  | EmptyString => inr ENOENT
  | String c _ =>
      let start := if Ascii.eqb c PosixPath.slash then [] else cwd f in
      walk (nodes f) start (PosixPath.split_on PosixPath.slash p)
  end.

(** [os.path.exists]: [False] on any [OSError]. *)
Definition exists_b (f : fs) (p : string) : bool :=
  match resolve f p with
  | inl a => match nodes f !! a with Some _ => true | None => false end
  | inr _ => false
  end.

(** [os.path.isfile] *)
Definition isfile_b (f : fs) (p : string) : bool :=
  match resolve f p with
  | inl a => match nodes f !! a with Some (File _) => true | _ => false end
  | inr _ => false
  end.

(** ** Streams *)

Definition errno_msg (n : nat) (text p : string) : string :=
  ("[Errno " ++ PyStr.str_of_nat n ++ "] " ++ text ++ ": '" ++ p ++ "'")%string.

Definition raise_errno {A} (e : errno) (p : string) : M A :=
  match e with
  | ENOENT => st_raise (FileNotFoundError (errno_msg 2 "No such file or directory" p))
  | ENOTDIR => st_raise (NotADirectoryError (errno_msg 20 "Not a directory" p))
  end.

Record stream : Type := mkStream { stream_path : list string }.

Definition create_file (w : world) (a : list string) : world :=
  mkWorld (mkFS (cwd (w_fs w)) (<[a := File []]> (nodes (w_fs w))))
    (a :: w_open w) (w_stdout w).

(** [io.FileIO(p, 'x')]: create the file, failing if anything exists
    under that name. *)
Definition fileio_x (p : string) : M stream :=
  fun w =>
    match resolve (w_fs w) p with
    | inr e => raise_errno e p w
    | inl a =>
        match nodes (w_fs w) !! a with
        | Some _ => st_raise (FileExistsError (errno_msg 17 "File exists" p)) w
        | None =>
            match nodes (w_fs w) !! removelast a with
            | Some Dir => (Normal (mkStream a), create_file w a)
            | Some (File _) => raise_errno ENOTDIR p w
            | None => raise_errno ENOENT p w
            end
        end
    end.

Definition append_bytes (bs : list byte) (n : option node) : option node :=
  match n with
  | Some (File d) => Some (File (d ++ bs))
  | other => other
  end.

(** [stream.write(bs)] on a stream opened by [fileio_x]. *)
Definition stream_write (s : stream) (bs : list byte) : M unit :=
  st_modify (fun w =>
    mkWorld (mkFS (cwd (w_fs w))
               (partial_alter (append_bytes bs) (stream_path s) (nodes (w_fs w))))
      (w_open w) (w_stdout w)).

(** [stream.close()] *)
Definition stream_close (s : stream) : M unit :=
  st_modify (fun w =>
    mkWorld (w_fs w)
      (List.filter (fun a => negb (bool_decide (a = stream_path s))) (w_open w))
      (w_stdout w)).

(** [print(line)] *)
Definition print (line : string) : M unit :=
  st_modify (fun w => mkWorld (w_fs w) (w_open w) (w_stdout w ++ [line])).

(** ** Well-formed file systems

    The root and the current directory are directories, and the parent
    of every other entry is a directory. *)
Definition fs_wf (f : fs) : Prop :=
  nodes f !! [] = Some Dir /\ nodes f !! cwd f = Some Dir /\
  forall a n, nodes f !! a = Some n -> a <> [] -> nodes f !! removelast a = Some Dir.

Definition world_wf (w : world) : Prop := fs_wf (w_fs w).

(** ** Lemmas *)

(** Writing a file where no directory stands, under a directory, keeps
    a file system well formed. *)
Lemma fs_wf_insert_file (f : fs) a bs :
  fs_wf f -> nodes f !! a <> Some Dir -> nodes f !! removelast a = Some Dir ->
  fs_wf (mkFS (cwd f) (<[a := File bs]> (nodes f))).
Proof.
  intros (Hroot & Hcwd & Hpar) Ha Hp. split; [|split]; simpl.
  - rewrite lookup_insert_ne; congruence.
  - rewrite lookup_insert_ne; congruence.
  - intros b n Hb Hne. destruct (decide (a = b)) as [<-|Hab].
    + rewrite lookup_insert_ne; [done|]. intros E. rewrite E in Hp. congruence.
    + rewrite lookup_insert_ne in Hb by done. specialize (Hpar b n Hb Hne).
      rewrite lookup_insert_ne; congruence.
Qed.

Lemma fileio_x_wf p : preserves world_wf (fileio_x p).
Proof.
  intros w Hw. unfold fileio_x.
  destruct (resolve (w_fs w) p) as [a|[]]; [|done|done].
  destruct (nodes (w_fs w) !! a) eqn:Ha; [done|].
  destruct (nodes (w_fs w) !! removelast a) as [[]|] eqn:Hp; try done.
  unfold world_wf, create_file. simpl. apply (fs_wf_insert_file (w_fs w)); [exact Hw|congruence|done].
Qed.

Lemma stream_write_wf s bs : preserves world_wf (stream_write s bs).
Proof.
  intros w Hw. unfold stream_write, st_modify, world_wf. simpl.
  destruct (nodes (w_fs w) !! stream_path s) as [[d|]|] eqn:Ha.
  - assert (Hne : stream_path s <> []) by (intros E; destruct Hw as [Hr _]; congruence).
    replace (partial_alter (append_bytes bs) (stream_path s) (nodes (w_fs w)))
      with (<[stream_path s := File (d ++ bs)]> (nodes (w_fs w))).
    + apply (fs_wf_insert_file (w_fs w)); [done|congruence|].
      destruct Hw as (_ & _ & Hpar). by apply (Hpar _ (File d)).
    + unfold insert, map_insert. apply partial_alter_ext. intros x' Hx'. subst x'. by rewrite Ha.
  - rewrite partial_alter_id; [|by rewrite Ha]. unfold world_wf in Hw. by destruct (w_fs w).
  - rewrite partial_alter_id; [|by rewrite Ha]. unfold world_wf in Hw. by destruct (w_fs w).
Qed.

Lemma stream_close_wf s : preserves world_wf (stream_close s).
Proof. by intros w Hw. Qed.

Lemma print_wf line : preserves world_wf (print line).
Proof. by intros w Hw. Qed.

(** A walk only reads the directories it passes through: it succeeds
    the same way in a map that keeps every directory. *)
Lemma walk_keep_dirs (ns1 ns2 : gmap (list string) node) cur cs r :
  (forall b, ns1 !! b = Some Dir -> ns2 !! b = Some Dir) ->
  walk ns1 cur cs = inl r -> walk ns2 cur cs = inl r.
Proof.
  intros Hd. revert cur. induction cs as [|c cs IH]; intros cur; simpl; [done|].
  destruct (String.eqb c "" || String.eqb c "."); [apply IH|].
  destruct (String.eqb c ".."); [apply IH|].
  destruct cs as [|c' cs']; [done|].
  destruct (ns1 !! (cur ++ [c])) as [[]|] eqn:E; try discriminate.
  rewrite (Hd _ E). apply IH.
Qed.

Lemma resolve_keep_dirs (f1 f2 : fs) p r :
  cwd f2 = cwd f1 ->
  (forall b, nodes f1 !! b = Some Dir -> nodes f2 !! b = Some Dir) ->
  resolve f1 p = inl r -> resolve f2 p = inl r.
Proof.
  intros Hc Hd. unfold resolve. destruct p as [|c p]; [done|].
  rewrite Hc. by apply walk_keep_dirs.
Qed.

(** Writing a list of files in order. *)
Fixpoint write_files (ns : gmap (list string) node)
    (l : list (list string * list byte)) : gmap (list string) node :=
  match l with
  | [] => ns
  | (a, bs) :: l' => write_files (<[a := File bs]> ns) l'
  end.

Lemma write_files_snoc ns l a bs :
  write_files ns (l ++ [(a, bs)]) = <[a := File bs]> (write_files ns l).
Proof.
  revert ns. induction l as [|[b cs] l IH]; intros ns; simpl; [done|]. apply IH.
Qed.

Lemma write_files_other ns l b :
  b ∉ l.*1 -> write_files ns l !! b = ns !! b.
Proof.
  revert ns. induction l as [|[a bs] l IH]; intros ns Hb; simpl; [done|].
  rewrite fmap_cons, elem_of_cons in Hb. simpl in Hb.
  rewrite IH by naive_solver. rewrite lookup_insert_ne; naive_solver.
Qed.

Lemma write_files_in ns l a bs :
  NoDup l.*1 -> (a, bs) ∈ l -> write_files ns l !! a = Some (File bs).
Proof.
  revert ns. induction l as [|[b cs] l IH]; intros ns Hnd Hin; simpl;
    [by apply elem_of_nil in Hin|].
  rewrite fmap_cons, NoDup_cons in Hnd. destruct Hnd as [Hb Hnd].
  apply elem_of_cons in Hin as [[= -> ->]|Hin].
  - rewrite write_files_other by done. apply lookup_insert_eq.
  - by apply IH.
Qed.

(** [fileio_x] on a fresh name whose parent is a directory. *)
Lemma fileio_x_fresh p a w :
  resolve (w_fs w) p = inl a -> nodes (w_fs w) !! a = None ->
  nodes (w_fs w) !! removelast a = Some Dir ->
  fileio_x p w = (Normal (mkStream a), create_file w a).
Proof. intros Hr Ha Hp. unfold fileio_x. by rewrite Hr, Ha, Hp. Qed.

(** [fileio_x] on a name that exists: [FileExistsError], nothing changes. *)
Lemma fileio_x_exists p a n w :
  resolve (w_fs w) p = inl a -> nodes (w_fs w) !! a = Some n ->
  fileio_x p w = (Raised (FileExistsError (errno_msg 17 "File exists" p)), w).
Proof. intros Hr Ha. unfold fileio_x. by rewrite Hr, Ha. Qed.

(** Writing to a stream just created: the file holds the bytes. *)
Lemma stream_write_created a bs w :
  stream_write (mkStream a) bs (create_file w a)
  = (Normal tt, mkWorld (mkFS (cwd (w_fs w)) (<[a := File bs]> (nodes (w_fs w))))
                  (a :: w_open w) (w_stdout w)).
Proof.
  unfold stream_write, create_file, st_modify. simpl.
  by rewrite partial_alter_insert_eq.
Qed.

(** Closing the one stream open on [a]. *)
Lemma stream_close_fresh a f l out :
  a ∉ l -> stream_close (mkStream a) (mkWorld f (a :: l) out) = (Normal tt, mkWorld f l out).
Proof.
  intros Ha. unfold stream_close, st_modify. simpl.
  rewrite bool_decide_eq_true_2 by done. simpl. rewrite filter_all_true; [done|].
  apply Forall_forall. intros b Hb. apply negb_true_iff, bool_decide_eq_false_2.
  intros ->. by apply Ha, list_elem_of_In.
Qed.

(** ** Entries that stay

    [keeps f0 w]: every entry of [f0] is still there, unchanged, in [w]. *)
Definition keeps (f0 : fs) (w : world) : Prop :=
  forall b n, nodes f0 !! b = Some n -> nodes (w_fs w) !! b = Some n.

(** What [fileio_x] does when it does not raise: it creates the file
    its stream names, which did not exist. *)
Lemma fileio_x_created p w s w' :
  fileio_x p w = (Normal s, w') ->
  nodes (w_fs w) !! stream_path s = None /\ w' = create_file w (stream_path s).
Proof.
  unfold fileio_x, raise_errno.
  destruct (resolve (w_fs w) p) as [a|[]]; [|done|done].
  destruct (nodes (w_fs w) !! a) eqn:Ha; [done|].
  destruct (nodes (w_fs w) !! removelast a) as [[]|]; try done.
  by intros [= <- <-].
Qed.

Lemma fileio_x_raised p w e w' : fileio_x p w = (Raised e, w') -> w' = w.
Proof.
  unfold fileio_x, raise_errno.
  destruct (resolve (w_fs w) p) as [a|[]]; try by intros [= _ <-].
  destruct (nodes (w_fs w) !! a); [by intros [= _ <-]|].
  destruct (nodes (w_fs w) !! removelast a) as [[]|]; by intros [= _ <-].
Qed.

Lemma create_file_keeps f0 w a :
  keeps f0 w -> nodes (w_fs w) !! a = None -> keeps f0 (create_file w a).
Proof.
  intros Hk Ha b n Hb. simpl. rewrite lookup_insert_ne; [by apply Hk|].
  intros <-. specialize (Hk a n Hb). congruence.
Qed.

(** Writing through a stream on a path [f0] did not have. *)
Lemma stream_write_keeps f0 s bs :
  nodes f0 !! stream_path s = None -> preserves (keeps f0) (stream_write s bs).
Proof.
  intros Hs w Hk b n Hb. unfold stream_write, st_modify. simpl.
  rewrite lookup_partial_alter_ne; [by apply Hk|]. congruence.
Qed.

Lemma stream_close_keeps f0 s : preserves (keeps f0) (stream_close s).
Proof. intros w Hk. exact Hk. Qed.

Lemma print_keeps f0 line : preserves (keeps f0) (print line).
Proof. intros w Hk. exact Hk. Qed.

End PyOS.

#[export] Hint Resolve PyOS.fileio_x_wf PyOS.stream_write_wf PyOS.stream_close_wf
  PyOS.print_wf PyOS.stream_write_keeps PyOS.stream_close_keeps PyOS.print_keeps : pdf.
