(* ===== verification/Engine.v ===== *)
(** * The [aspose.pdf] engine, as an interface

    [src/pdf_tool.py] delegates all parsing, rendering and writing to the
    closed-source [aspose.pdf] package.  Its object model is an interface
    here: the [Engine] class gives the document and page types, the
    default option objects the code's constructors return, and the calls
    the code makes ([ap.Document(path[, options])], [optimize_resources],
    [save], [pages], [device.process]), each of which may fail with a
    message.  The theorems of the development hold for every instance;
    [FakeEngine] is one concrete instance used to run the witnesses.
    The option records carry exactly the fields the code sets. *)

From stdpp Require Import base list strings gmap.
From Stdlib Require Import String Ascii ZArith QArith_base.
From Stdlib Require Import Init.Byte.
From S2P Require Import Prelude PyStr PyPath Errors PyOS.
Local Open Scope py_scope.

Module Aspose.
Import Errors PyOS.

Record ImageCompressionOptions : Type := mkImageCompressionOptions {
  compress_images : bool;
  image_quality : Z
}.
Record OptimizationOptions : Type := mkOptimizationOptions {
  image_compression_options : ImageCompressionOptions
}.

Record SvgSaveOptions : Type := mkSvgSaveOptions {
  compress_output_to_zip_archive : bool;
  treat_target_file_name_as_directory : bool
}.

Inductive DocFormat : Type := DOC | DOC_X.
Inductive RecognitionMode : Type := TEXTBOX | FLOW | ENHANCED_FLOW.
Record DocSaveOptions : Type := mkDocSaveOptions {
  doc_format : DocFormat;
  mode : RecognitionMode;
  relative_horizontal_proximity : Q;
  recognize_bullets : bool
}.

Inductive ExcelFormat : Type := XML_SPREAD_SHEET2003 | XLSX | XLSM | CSV | ODS.
Record ExcelSaveOptions : Type := mkExcelSaveOptions { excel_format : ExcelFormat }.

Record PptxSaveOptions : Type := mkPptxSaveOptions { slides_as_images : bool }.

(** [ap.SaveFormat] members the code names. *)
Inductive SaveFormat : Type := SaveFormat_DOC.

(** The second argument of [document.save]. *)
Inductive SaveOptions : Type :=
| SaveDefault                          (** [save(path)] *)
| SaveAs (f : SaveFormat)              (** [save(path, ap.SaveFormat.X)] *)
| SaveSvg (o : SvgSaveOptions)
| SaveDoc (o : DocSaveOptions)
| SaveExcel (o : ExcelSaveOptions)
| SavePptx (o : PptxSaveOptions).

(** The second argument of [ap.Document]. *)
Inductive LoadOptions : Type :=
| LoadPdf                              (** [ap.Document(path)] *)
| LoadHtml.                            (** [ap.Document(path, ap.HtmlLoadOptions())] *)

Inductive DeviceKind : Type := BmpDevice | EmfDevice | JpegDevice | PngDevice | GifDevice.
(** [ap.devices.XDevice(ap.devices.Resolution(r))] *)
Record Device : Type := mkDevice { device_kind : DeviceKind; device_resolution : Z }.

Class Engine : Type := {
  Document : Type;
  Page : Type;
  new_OptimizationOptions : OptimizationOptions;
  new_SvgSaveOptions : SvgSaveOptions;
  new_DocSaveOptions : DocSaveOptions;
  new_ExcelSaveOptions : ExcelSaveOptions;
  new_PptxSaveOptions : PptxSaveOptions;
  doc_load : fs -> string -> LoadOptions -> Document + string;
  doc_optimize_resources : Document -> OptimizationOptions -> Document + string;
  doc_save : fs -> Document -> string -> SaveOptions -> fs + string;
  doc_pages : Document -> list Page;
  (** the bytes written to the stream, then the failure if any *)
  device_process : Device -> Page -> list byte * option string
}.

(** ** The engine's calls as operations of the world *)
Section Calls.
Context `{E : Engine}.

Definition ap_Document (p : string) (lo : LoadOptions) : M Document :=
  let* w := st_get in st_lift EngineError (doc_load (w_fs w) p lo).

Definition optimize_resources (d : Document) (o : OptimizationOptions) : M Document :=
  st_lift EngineError (doc_optimize_resources d o).

Definition save (d : Document) (p : string) (so : SaveOptions) : M unit :=
  let* w := st_get in
  let* f := st_lift EngineError (doc_save (w_fs w) d p so) in
  st_put (set_fs w f).

(** [document.pages[k]]: the collection is indexed from 1. *)
Definition page_at (d : Document) (k : nat) : M Page :=
  if (1 <=? k)%nat then
    match doc_pages d !! (k - 1)%nat with
    | Some pg => st_ret pg
    | None => st_raise (IndexError "index")
    end
  else st_raise (IndexError "index").

(** [device.process(page, stream)]: the engine writes to the stream,
    then may raise. *)
Definition process (dev : Device) (pg : Page) (s : stream) : M unit :=
  let '(bs, err) := device_process dev pg in
  stream_write s bs ;;
  match err with
  | Some m => st_raise (EngineError m)
  | None => st_ret tt
  end.
End Calls.

(** ** Describing a run of the engine

    [sum_bind] chains engine answers; [engine_report] is what the
    [try ... except Exception as e: print(...); return False] blocks
    of the module leave: [True] with the saved file system, or [False]
    with one more printed line. *)
Definition sum_bind {A B} (r : A + string) (f : A -> B + string) : B + string :=
  match r with inl a => f a | inr m => inr m end.

Definition log_line (w : world) (line : string) : world :=
  mkWorld (w_fs w) (w_open w) (w_stdout w ++ [line]).

Definition engine_report (w : world) (prefix : string) (r : fs + string)
  : outcome exn bool * world :=
  match r with
  | inl f => (Normal true, set_fs w f)
  | inr m => (Normal false, log_line w (prefix ++ m)%string)
  end.

(** Laws a well-behaved engine satisfies: saving keeps the file system
    well formed and its current directory, and changes no entry but
    the one the target path resolves to. *)
Class EngineLaws `{E : Engine} : Prop := {
  doc_save_wf : forall f d p so f',
    doc_save f d p so = inl f' -> fs_wf f -> fs_wf f';
  doc_save_cwd : forall f d p so f',
    doc_save f d p so = inl f' -> cwd f' = cwd f;
  doc_save_frame : forall f d p so f' b,
    doc_save f d p so = inl f' -> resolve f p <> inl b -> nodes f' !! b = nodes f !! b
}.

Section Preserve.
Context `{E : Engine} `{!EngineLaws}.

Lemma ap_Document_wf p lo : preserves world_wf (ap_Document p lo).
Proof. unfold ap_Document. preserves_auto. Qed.

Lemma optimize_resources_wf d o : preserves world_wf (optimize_resources d o).
Proof. apply preserves_lift. Qed.

Lemma save_wf d p so : preserves world_wf (save d p so).
Proof.
  intros w Hw. unfold save, st_bind, st_get, st_lift.
  destruct (doc_save (w_fs w) d p so) eqn:Hs; simpl; [|done].
  by apply (doc_save_wf (w_fs w) d p so).
Qed.

Lemma page_at_wf d k : preserves world_wf (page_at d k).
Proof. unfold page_at. preserves_auto. Qed.

Lemma process_wf dev pg s : preserves world_wf (process dev pg s).
Proof. unfold process. preserves_auto. Qed.
End Preserve.

(** A device writes only through its stream. *)
Lemma process_keeps `{E : Engine} f0 dev pg s :
  nodes f0 !! stream_path s = None -> preserves (keeps f0) (process dev pg s).
Proof. intros Hs. unfold process. preserves_auto. Qed.

(** Follow every path of a run of the single-file handlers, and close
    the case of a successful save with [doc_save_frame]. *)
Ltac frame_run :=
  unfold set_fs; st_unfold; simpl;
  repeat match goal with
         | |- context [match ?x with inl _ => _ | inr _ => _ end] => destruct x eqn:?; simpl
         | |- context [if ?c then _ else _] => destruct c; simpl
         end;
  try done;
  match goal with
  | H : doc_save _ _ _ _ = inl _ |- _ => eapply doc_save_frame; [exact H|done]
  end.

(** Run a handler whose checks have passed, case by case on the
    engine's answers, and close each case. *)
Ltac engine_run :=
  unfold ap_Document, optimize_resources, save, print, engine_report, sum_bind,
    log_line, set_fs in *;
  st_unfold; simpl;
  repeat match goal with
         | |- context [match ?x with inl _ => _ | inr _ => _ end] => destruct x; simpl
         end;
  rewrite <- ?string_app_assoc; try done.

End Aspose.

#[export] Hint Resolve Aspose.ap_Document_wf Aspose.optimize_resources_wf Aspose.save_wf
  Aspose.page_at_wf Aspose.process_wf : pdf.
