(* ===== verification/FakeEngine.v ===== *)
(** * A concrete engine and a sample world

    [fake_engine] instantiates [Aspose.Engine]: a document is the list of
    its pages, a page is its bytes; loading a stored file of [n] bytes
    gives [n] one-byte pages, saving writes the concatenated pages to the
    target (refusing a directory or a missing parent), and a device
    renders a page as its bytes.  It satisfies [EngineLaws].  [sample]
    is a world with [/in/report.pdf] (three pages) and an empty [/out];
    the witnesses of the development run on them. *)

From stdpp Require Import base list strings gmap.
From Stdlib Require Import String Ascii ZArith QArith_base.
From Stdlib Require Import Init.Byte.
From S2P Require Import Prelude PyStr PyPath Errors PyOS Engine.

Module FakeEngine.
Import PyOS Aspose.

Definition fake_load (f : fs) (p : string) (lo : LoadOptions)
  : list (list byte) + string :=
  match resolve f p with
  | inl a =>
      match nodes f !! a with
      | Some (File d) => inl (map (fun b => [b]) d)
      | _ => inr "cannot open"%string
      end
  | inr _ => inr "cannot open"%string
  end.

Definition fake_save (f : fs) (d : list (list byte)) (p : string) (so : SaveOptions)
  : fs + string :=
  match resolve f p with
  | inl a =>
      match nodes f !! a, nodes f !! removelast a with
      | Some Dir, _ => inr "is a directory"%string
      | _, Some Dir => inl (mkFS (cwd f) (<[a := File (List.concat d)]> (nodes f)))
      | _, _ => inr "no parent"%string
      end
  | inr _ => inr "bad path"%string
  end.

#[export] Instance fake_engine : Engine := {|
  Document := list (list byte);
  Page := list byte;
  new_OptimizationOptions := mkOptimizationOptions (mkImageCompressionOptions false 100);
  new_SvgSaveOptions := mkSvgSaveOptions false false;
  new_DocSaveOptions := mkDocSaveOptions DOC TEXTBOX (Qmake 1 1) false;
  new_ExcelSaveOptions := mkExcelSaveOptions XLSX;
  new_PptxSaveOptions := mkPptxSaveOptions false;
  doc_load := fake_load;
  doc_optimize_resources := fun d _ => inl d;
  doc_save := fake_save;
  doc_pages := fun d => d;
  device_process := fun _ pg => (pg, None)
|}.

(** The same engine with a device that fails on a page holding the byte
    [0x02], after writing it. *)
Definition flaky_engine : Engine := {|
  Document := list (list byte);
  Page := list byte;
  new_OptimizationOptions := mkOptimizationOptions (mkImageCompressionOptions false 100);
  new_SvgSaveOptions := mkSvgSaveOptions false false;
  new_DocSaveOptions := mkDocSaveOptions DOC TEXTBOX (Qmake 1 1) false;
  new_ExcelSaveOptions := mkExcelSaveOptions XLSX;
  new_PptxSaveOptions := mkPptxSaveOptions false;
  doc_load := fake_load;
  doc_optimize_resources := fun d _ => inl d;
  doc_save := fake_save;
  doc_pages := fun d => d;
  device_process := fun _ pg =>
    match pg with
    | [b] => if Byte.eqb b x02 then (pg, Some "render failed"%string) else (pg, None)
    | _ => (pg, None)
    end
|}.

Lemma fake_save_wf f d p so f' : fake_save f d p so = inl f' -> fs_wf f -> fs_wf f'.
Proof.
  unfold fake_save. intros Hs Hwf.
  destruct (resolve f p) as [a|]; [|done].
  destruct (nodes f !! a) as [[|]|] eqn:Ea, (nodes f !! removelast a) as [[|]|] eqn:Ep;
    try discriminate; injection Hs as <-; apply fs_wf_insert_file; congruence.
Qed.

#[export] Instance fake_engine_laws : EngineLaws.
Proof.
  split.
  - apply fake_save_wf.
  - intros f d p so f'. simpl. unfold fake_save.
    destruct (resolve f p); [|done].
    repeat case_match; try discriminate; by intros [= <-].
  - intros f d p so f' b. simpl. unfold fake_save. intros Hs Hb.
    destruct (resolve f p) as [a|]; [|done].
    destruct (nodes f !! a) as [[|]|], (nodes f !! removelast a) as [[|]|];
      try discriminate; injection Hs as <-; simpl;
      apply lookup_insert_ne; congruence.
Qed.

(** [/], [/in], [/in/report.pdf] with three one-byte pages, [/out]. *)
Definition sample_fs : fs :=
  mkFS [] (<[["in"; "report.pdf"] := File [x01; x02; x03]]>
           (<[["out"] := Dir]> (<[["in"] := Dir]> {[ [] := Dir ]})))%string.

Definition sample : world := mkWorld sample_fs [] [].

Lemma sample_wf : world_wf sample.
Proof.
  split; [done|]. split; [done|].
  intros a n. unfold sample_fs. simpl.
  rewrite !lookup_insert, lookup_singleton.
  repeat case_decide; subst; intros; simplify_eq; done.
Qed.

End FakeEngine.
