(* ===== verification/Validation.v ===== *)
(** * Precondition checks of [src/pdf_tool.py]

    The helper predicates of lines 23-33 ([path_exists],
    [is_valid_compression_percentage], [is_file]), the messages of the
    two built-in exceptions the operations raise, the closed sets of
    target types (lines 140 and 240) and the normalisation
    [t.lower().strip()] (lines 139 and 239).  The theorem here: every
    casing and whitespace padding of a valid target normalises to it. *)

From stdpp Require Import base list strings.
From Stdlib Require Import String Ascii ZArith Lia.
From S2P Require Import Prelude PyStr PyPath Errors PyOS.
Local Open Scope py_scope.

Module Validation.
Import PyOS.

(** [path_exists] (line 23) *)
Definition path_exists (path : string) : M bool :=
  let* w := st_get in st_ret (exists_b (w_fs w) path).

(** [is_valid_compression_percentage] (line 27) *)
Definition is_valid_compression_percentage (compression_percentage : Z) : bool :=
  (0 <=? compression_percentage)%Z && (compression_percentage <=? 100)%Z.

(** [is_file] (line 31) *)
Definition is_file (path : string) : M bool :=
  let* w := st_get in st_ret (isfile_b (w_fs w) path).

(** [f"File {input_path} does not exists."] *)
Definition missing_file_msg (input_path : string) : string :=
  ("File " ++ input_path ++ " does not exists.")%string.

(** [f"Output folder {output_path} does not exists."] *)
Definition missing_folder_msg (output_path : string) : string :=
  ("Output folder " ++ output_path ++ " does not exists.")%string.

Definition valid_doc_types : list string := ["doc"; "docx"; "xls"; "xlsx"; "pptx"].
Definition valid_img_types : list string := ["bmp"; "emf"; "jpg"; "png"; "gif"].

(** [t.lower().strip()] *)
Definition normalize_type (t : string) : string := PyStr.strip (PyStr.lower t).

(** A canonical target: what [normalize_type] leaves alone. *)
Definition trimmed (t : string) : Prop :=
  PyStr.lstrip t = t /\ PyStr.rstrip t = t /\ t <> "".

Lemma valid_doc_types_trimmed : Forall trimmed valid_doc_types.
Proof. repeat constructor; done. Qed.

Lemma valid_img_types_trimmed : Forall trimmed valid_img_types.
Proof. repeat constructor; done. Qed.

(** Normalising whitespace padding around any casing of a trimmed
    string gives back its lower-case form. *)
Lemma normalize_type_pad (w1 s w2 t : string) :
  PyStr.all_space w1 = true -> PyStr.all_space w2 = true ->
  PyStr.lower s = t -> trimmed t ->
  normalize_type (w1 ++ s ++ w2) = t.
Proof.
  intros H1 H2 Hs (Hl & Hr & Hne). unfold normalize_type.
  rewrite !PyStr.lower_app, (PyStr.lower_all_space w1), (PyStr.lower_all_space w2), Hs
    by done.
  by apply PyStr.strip_pad.
Qed.

(** C10: every casing of a valid document or image type, padded with
    any whitespace on either side, normalises to that type, so the
    membership test accepts it and the dispatch sees the canonical
    lower-case name. *)
Theorem target_variants_normalize (w1 s w2 t : string) :
  t ∈ valid_doc_types ++ valid_img_types ->
  PyStr.all_space w1 = true -> PyStr.all_space w2 = true -> PyStr.lower s = t ->
  normalize_type (w1 ++ s ++ w2) = t.
Proof.
  intros Ht H1 H2 Hs. apply normalize_type_pad; try done.
  assert (Hall : Forall trimmed (valid_doc_types ++ valid_img_types))
    by (apply Forall_app; split; [apply valid_doc_types_trimmed | apply valid_img_types_trimmed]).
  rewrite Forall_forall in Hall. by apply Hall.
Qed.

(** A tab, then a space. *)
Definition tab_space : string := String (ascii_of_nat 9) " ".

Lemma target_variants_normalize_witness :
  "docx" ∈ valid_doc_types ++ valid_img_types /\
  normalize_type (tab_space ++ "DocX" ++ "  ") = "docx".
Proof.
  assert (Hin : "docx" ∈ valid_doc_types ++ valid_img_types)
    by (apply (bool_decide_unpack _); vm_compute; reflexivity).
  split; [exact Hin|].
  apply target_variants_normalize; [exact Hin|vm_compute; reflexivity..].
Defined.

Lemma path_exists_wf p : preserves world_wf (path_exists p).
Proof. unfold path_exists. preserves_auto. Qed.

Lemma is_file_wf p : preserves world_wf (is_file p).
Proof. unfold is_file. preserves_auto. Qed.

End Validation.

#[export] Hint Resolve Validation.path_exists_wf Validation.is_file_wf : pdf.
