(* ===== verification/SingleFile.v ===== *)
(** * Single-file conversions: [compress_pdf], [html_to_pdf], [pdf_to_svg]

    Lines 35-88 of [src/pdf_tool.py].  Each checks that the input is a
    regular file ([compress_pdf] then checks the quality), then runs the
    engine inside [try ... except Exception], turning any failure into a
    printed line and [False].  The theorems give each operation's whole
    behaviour once its checks pass, as a function of the engine's answers,
    and the quality bound of [compress_pdf]; the frame lemmas say that
    only the entry [output_path] resolves to may change. *)

From stdpp Require Import base list strings gmap.
From Stdlib Require Import String Ascii ZArith Lia.
From S2P Require Import Prelude PyStr PyPath Errors PyOS Engine FakeEngine Validation.
Local Open Scope py_scope.

Module SingleFile.
Import Errors PyOS Aspose Validation.

Section Ops.
Context `{E : Engine}.

(** [compress_pdf] (lines 35-55) *)
Definition compress_pdf (input_path output_path : string) (quality : Z) : M bool :=
  let* f := is_file input_path in
  if negb f then st_raise (FileExistsError (missing_file_msg input_path)) else
  if negb (is_valid_compression_percentage quality)
  then st_raise (InvalidPercentageError quality) else
  st_try
    (let* compressPdfDocument := ap_Document input_path LoadPdf in
     let o := new_OptimizationOptions in
     let ico := image_compression_options o in
     let ico := mkImageCompressionOptions true (image_quality ico) in
     let ico := mkImageCompressionOptions (compress_images ico) quality in
     let pdfoptimizeOptions := mkOptimizationOptions ico in
     let* compressPdfDocument :=
       optimize_resources compressPdfDocument pdfoptimizeOptions in
     save compressPdfDocument output_path SaveDefault ;;
     st_ret true)
    (fun e =>
       print ("Error compress " ++ input_path ++ ": " ++ exc_str e)%string ;;
       st_ret false).

(** [html_to_pdf] (lines 58-70) *)
Definition html_to_pdf (input_path output_path : string) : M bool :=
  let* f := is_file input_path in
  if negb f then st_raise (FileExistsError (missing_file_msg input_path)) else
  st_try
    (let* document := ap_Document input_path LoadHtml in
     save document output_path SaveDefault ;;
     st_ret true)
    (fun e =>
       print ("Error convert " ++ input_path ++ ": " ++ exc_str e)%string ;;
       st_ret false).

(** [pdf_to_svg] (lines 73-88) *)
Definition pdf_to_svg (input_path output_path : string) : M bool :=
  let* f := is_file input_path in
  if negb f then st_raise (FileExistsError (missing_file_msg input_path)) else
  st_try
    (let* document := ap_Document input_path LoadPdf in
     let o := new_SvgSaveOptions in
     let o := mkSvgSaveOptions false (treat_target_file_name_as_directory o) in
     let saveOptions := mkSvgSaveOptions (compress_output_to_zip_archive o) true in
     save document output_path (SaveSvg saveOptions) ;;
     st_ret true)
    (fun e =>
       print ("Error convert " ++ input_path ++ ": " ++ exc_str e)%string ;;
       st_ret false).

(** ** Behaviour once the checks pass *)

Lemma compress_options_eq (quality : Z) :
  (let o := new_OptimizationOptions in
   let ico := image_compression_options o in
   let ico := mkImageCompressionOptions true (image_quality ico) in
   let ico := mkImageCompressionOptions (compress_images ico) quality in
   mkOptimizationOptions ico)
  = mkOptimizationOptions (mkImageCompressionOptions true quality).
Proof. reflexivity. Qed.

(** C8: for a regular input file and a quality in [[0, 100]],
    [compress_pdf] loads the PDF, optimises it with image compression on
    at that quality, saves it to [output_path] and returns [True]; if
    any engine call fails it prints ["Error compress <input>: <msg>"],
    leaves the files as they were and returns [False].  It never raises. *)
Theorem compress_pdf_valid (input_path output_path : string) (quality : Z) (w : world) :
  isfile_b (w_fs w) input_path = true -> (0 <= quality <= 100)%Z ->
  compress_pdf input_path output_path quality w =
  engine_report w ("Error compress " ++ input_path ++ ": ")%string
    (sum_bind (doc_load (w_fs w) input_path LoadPdf) (fun d =>
     sum_bind (doc_optimize_resources d
                 (mkOptimizationOptions (mkImageCompressionOptions true quality)))
       (fun d' => doc_save (w_fs w) d' output_path SaveDefault))).
Proof.
  intros Hf Hq. unfold compress_pdf, is_file.
  unfold is_valid_compression_percentage.
  replace ((0 <=? quality)%Z && (quality <=? 100)%Z) with true
    by (symmetry; apply andb_true_iff; lia).
  st_unfold. simpl. rewrite Hf. engine_run.
Qed.

(** C9: with a regular input file, a quality outside [[0, 100]]
    raises [InvalidPercentageError(quality)] before the engine is
    touched: the world is unchanged; 0 and 100 themselves pass. *)
Theorem compress_pdf_quality_bounds (input_path output_path : string) (quality : Z) (w : world) :
  isfile_b (w_fs w) input_path = true ->
  (compress_pdf input_path output_path quality w
     = (Raised (InvalidPercentageError quality), w)
   <-> (quality < 0 \/ 100 < quality)%Z).
Proof.
  intros Hf. unfold compress_pdf, is_file. st_unfold. simpl. rewrite Hf. simpl.
  unfold is_valid_compression_percentage.
  destruct ((0 <=? quality)%Z && (quality <=? 100)%Z) eqn:Hq; simpl.
  - apply andb_true_iff in Hq as [H1 H2]. apply Z.leb_le in H1, H2.
    split; [|lia]. intros H.
    unfold ap_Document in H. st_unfold. simpl in H.
    destruct (doc_load _ _ _); simpl in H;
      repeat (case_match; simpl in H); simplify_eq.
  - split; [intros _|done].
    apply andb_false_iff in Hq as [H|H]; apply Z.leb_gt in H; lia.
Qed.

(** C14: for a regular input file, [html_to_pdf] loads it as HTML
    and saves it as a PDF at [output_path], returning [True]; an engine
    failure prints ["Error convert <input>: <msg>"] and returns [False]. *)
Theorem html_to_pdf_valid (input_path output_path : string) (w : world) :
  isfile_b (w_fs w) input_path = true ->
  html_to_pdf input_path output_path w =
  engine_report w ("Error convert " ++ input_path ++ ": ")%string
    (sum_bind (doc_load (w_fs w) input_path LoadHtml)
       (fun d => doc_save (w_fs w) d output_path SaveDefault)).
Proof. intros Hf. unfold html_to_pdf, is_file. st_unfold. simpl. rewrite Hf. engine_run. Qed.

(** C15: for a regular input file, [pdf_to_svg] saves the document
    with SVG options that do not zip the output and treat the target
    name as a directory, whatever the engine's defaults; failures
    become a printed line and [False]. *)
Theorem pdf_to_svg_valid (input_path output_path : string) (w : world) :
  isfile_b (w_fs w) input_path = true ->
  pdf_to_svg input_path output_path w =
  engine_report w ("Error convert " ++ input_path ++ ": ")%string
    (sum_bind (doc_load (w_fs w) input_path LoadPdf)
       (fun d => doc_save (w_fs w) d output_path (SaveSvg (mkSvgSaveOptions false true)))).
Proof. intros Hf. unfold pdf_to_svg, is_file. st_unfold. simpl. rewrite Hf. engine_run. Qed.

End Ops.

(** ** Well-formedness is preserved *)
Section Preserve.
Context `{E : Engine} `{!EngineLaws}.

Lemma compress_pdf_wf i o q : preserves world_wf (compress_pdf i o q).
Proof. unfold compress_pdf. preserves_auto. Qed.

Lemma html_to_pdf_wf i o : preserves world_wf (html_to_pdf i o).
Proof. unfold html_to_pdf. preserves_auto. Qed.

Lemma pdf_to_svg_wf i o : preserves world_wf (pdf_to_svg i o).
Proof. unfold pdf_to_svg. preserves_auto. Qed.
End Preserve.

(** ** What a run may change

    Whatever the engine answers, every entry of the file system other
    than the one [output_path] resolves to is left as it was: the input
    file in particular, unless it is also the output. *)
Section Frame.
Context `{E : Engine} `{!EngineLaws}.

Lemma compress_pdf_frame i o q w b :
  resolve (w_fs w) o <> inl b ->
  nodes (w_fs (snd (compress_pdf i o q w))) !! b = nodes (w_fs w) !! b.
Proof.
  intros Hb. unfold compress_pdf, is_file, ap_Document, optimize_resources, save, print.
  frame_run.
Qed.

Lemma html_to_pdf_frame i o w b :
  resolve (w_fs w) o <> inl b ->
  nodes (w_fs (snd (html_to_pdf i o w))) !! b = nodes (w_fs w) !! b.
Proof. intros Hb. unfold html_to_pdf, is_file, ap_Document, save, print. frame_run. Qed.

Lemma pdf_to_svg_frame i o w b :
  resolve (w_fs w) o <> inl b ->
  nodes (w_fs (snd (pdf_to_svg i o w))) !! b = nodes (w_fs w) !! b.
Proof. intros Hb. unfold pdf_to_svg, is_file, ap_Document, save, print. frame_run. Qed.
End Frame.

(** ** Witnesses, on the sample world *)
Import FakeEngine.

Lemma compress_pdf_valid_witness :
  isfile_b (w_fs sample) "/in/report.pdf" = true /\ (0 <= 50 <= 100)%Z /\
  compress_pdf "/in/report.pdf" "/out/small.pdf" 50 sample =
  engine_report sample "Error compress /in/report.pdf: "
    (sum_bind (doc_load (w_fs sample) "/in/report.pdf" LoadPdf) (fun d =>
     sum_bind (doc_optimize_resources d
                 (mkOptimizationOptions (mkImageCompressionOptions true 50)))
       (fun d' => doc_save (w_fs sample) d' "/out/small.pdf" SaveDefault))).
Proof.
  split; [vm_compute; reflexivity|]. split; [lia|].
  apply (compress_pdf_valid "/in/report.pdf" "/out/small.pdf" 50 sample);
    [vm_compute; reflexivity | lia].
Defined.

Lemma compress_pdf_quality_bounds_witness :
  isfile_b (w_fs sample) "/in/report.pdf" = true /\
  (compress_pdf "/in/report.pdf" "/out/small.pdf" 101 sample
     = (Raised (InvalidPercentageError 101), sample) <-> (101 < 0 \/ 100 < 101)%Z).
Proof.
  split; [vm_compute; reflexivity|].
  apply (compress_pdf_quality_bounds "/in/report.pdf" "/out/small.pdf" 101 sample).
  vm_compute; reflexivity.
Defined.

Lemma html_to_pdf_valid_witness :
  isfile_b (w_fs sample) "/in/report.pdf" = true /\
  html_to_pdf "/in/report.pdf" "/out/r.pdf" sample =
  engine_report sample "Error convert /in/report.pdf: "
    (sum_bind (doc_load (w_fs sample) "/in/report.pdf" LoadHtml)
       (fun d => doc_save (w_fs sample) d "/out/r.pdf" SaveDefault)).
Proof.
  split; [vm_compute; reflexivity|].
  apply (html_to_pdf_valid "/in/report.pdf" "/out/r.pdf" sample). vm_compute; reflexivity.
Defined.

Lemma pdf_to_svg_valid_witness :
  isfile_b (w_fs sample) "/in/report.pdf" = true /\
  pdf_to_svg "/in/report.pdf" "/out/svg" sample =
  engine_report sample "Error convert /in/report.pdf: "
    (sum_bind (doc_load (w_fs sample) "/in/report.pdf" LoadPdf)
       (fun d => doc_save (w_fs sample) d "/out/svg" (SaveSvg (mkSvgSaveOptions false true)))).
Proof.
  split; [vm_compute; reflexivity|].
  apply (pdf_to_svg_valid "/in/report.pdf" "/out/svg" sample). vm_compute; reflexivity.
Defined.

End SingleFile.

#[export] Hint Resolve SingleFile.compress_pdf_wf SingleFile.html_to_pdf_wf
  SingleFile.pdf_to_svg_wf : pdf.
