(* ===== verification/Documents.v ===== *)
(** * Office conversions: [pdf_to_doc] ... [pdf_to_pptx], [pdf_to_documents]

    Lines 91-162 of [src/pdf_tool.py].  Five converters each load the PDF
    and save it with fixed options; [pdf_to_documents] checks the input
    file, the output folder and the normalised target type, derives
    [<output>/<stem>.<type>] with [os.path] and [pathlib], and dispatches
    on the type inside [try ... except Exception].  The theorems: the
    whole behaviour once the checks pass (one save, at the derived path,
    with the options of the target: the dispatch never falls through),
    the type error, that an existing regular file passes the folder
    check, the general shape of the derived path, and that only the
    entry that path resolves to may change. *)

From stdpp Require Import base list strings gmap.
From Stdlib Require Import String Ascii ZArith QArith_base Lia.
From S2P Require Import Prelude PyStr PyPath Errors PyOS Engine FakeEngine Validation.
Local Open Scope py_scope.

Module Documents.
Import Errors PyOS Aspose Validation.

Section Ops.
Context `{E : Engine}.

(** [pdf_to_doc] (lines 92-94) *)
Definition pdf_to_doc (input_path output_path : string) : M unit :=
  let* document := ap_Document input_path LoadPdf in
  save document output_path (SaveAs SaveFormat_DOC).

(** [pdf_to_docx] (lines 97-106) *)
Definition pdf_to_docx (input_path output_path : string) : M unit :=
  let* document := ap_Document input_path LoadPdf in
  let o := new_DocSaveOptions in
  let o := mkDocSaveOptions DOC_X (mode o) (relative_horizontal_proximity o)
             (recognize_bullets o) in
  let o := mkDocSaveOptions (doc_format o) FLOW (relative_horizontal_proximity o)
             (recognize_bullets o) in
  let o := mkDocSaveOptions (doc_format o) (mode o) (Qmake 25 10) (recognize_bullets o) in
  let save_options := mkDocSaveOptions (doc_format o) (mode o)
                        (relative_horizontal_proximity o) true in
  save document output_path (SaveDoc save_options).

(** [pdf_to_xls] (lines 109-115) *)
Definition pdf_to_xls (input_path output_path : string) : M unit :=
  let* document := ap_Document input_path LoadPdf in
  let save_option := mkExcelSaveOptions XML_SPREAD_SHEET2003 in
  save document output_path (SaveExcel save_option).

(** [pdf_to_xlsx] (lines 118-122) *)
Definition pdf_to_xlsx (input_path output_path : string) : M unit :=
  let* document := ap_Document input_path LoadPdf in
  let save_option := new_ExcelSaveOptions in
  save document output_path (SaveExcel save_option).

(** [pdf_to_pptx] (lines 125-129) *)
Definition pdf_to_pptx (input_path output_path : string) : M unit :=
  let* document := ap_Document input_path LoadPdf in
  let save_option := mkPptxSaveOptions true in
  save document output_path (SavePptx save_option).

(** The [if doc_type == ...: elif ...] chain of lines 149-158; a type
    matching none of the branches does nothing. *)
Definition convert_document (doc_type input_path output_path : string) : M unit :=
  if String.eqb doc_type "doc" then pdf_to_doc input_path output_path
  else if String.eqb doc_type "docx" then pdf_to_docx input_path output_path
  else if String.eqb doc_type "xls" then pdf_to_xls input_path output_path
  else if String.eqb doc_type "xlsx" then pdf_to_xlsx input_path output_path
  else if String.eqb doc_type "pptx" then pdf_to_pptx input_path output_path
  else st_ret tt.

(** [f"{filename}.{doc_type}"] under [Path(output_path)] (lines 144-146) *)
Definition document_output_path (input_path output_path doc_type : string) : string :=
  let '(filename, extension) := PosixPath.splitext (PosixPath.basename input_path) in
  let output_name := (filename ++ "." ++ doc_type)%string in
  PurePath.to_str (PurePath.div (PurePath.parse output_path) output_name).

(** [pdf_to_documents] (lines 132-162) *)
Definition pdf_to_documents (input_path output_path doc_type : string) : M bool :=
  let* f := is_file input_path in
  if negb f then st_raise (FileExistsError (missing_file_msg input_path)) else
  let* ex := path_exists output_path in
  if negb ex then st_raise (NotADirectoryError (missing_folder_msg output_path)) else
  let doc_type := normalize_type doc_type in
  if negb (PyStr.str_in doc_type valid_doc_types)
  then st_raise (InvalidDocTypeError doc_type) else
  let output_path := document_output_path input_path output_path doc_type in
  st_try
    (convert_document doc_type input_path output_path ;; st_ret true)
    (fun e =>
       print ("Error convert " ++ input_path ++ ": " ++ exc_str e)%string ;;
       st_ret false).

(** ** The office targets

    The closed set of [valid_doc_types] as an enumeration, with the
    save options the specification's interface table fixes for each. *)
Inductive doc_target : Type := T_doc | T_docx | T_xls | T_xlsx | T_pptx.

Definition doc_target_name (t : doc_target) : string :=
  match t with
  | T_doc => "doc" | T_docx => "docx" | T_xls => "xls"
  | T_xlsx => "xlsx" | T_pptx => "pptx"
  end.

Definition doc_target_options (t : doc_target) : SaveOptions :=
  match t with
  | T_doc => SaveAs SaveFormat_DOC
  | T_docx => SaveDoc (mkDocSaveOptions DOC_X FLOW (Qmake 25 10) true)
  | T_xls => SaveExcel (mkExcelSaveOptions XML_SPREAD_SHEET2003)
  | T_xlsx => SaveExcel new_ExcelSaveOptions
  | T_pptx => SavePptx (mkPptxSaveOptions true)
  end.

Lemma valid_doc_type_target (s : string) :
  PyStr.str_in s valid_doc_types = true <-> exists t, s = doc_target_name t.
Proof.
  rewrite PyStr.str_in_spec. split.
  - unfold valid_doc_types. rewrite !elem_of_cons, elem_of_nil.
    intros [->|[->|[->|[->|[->|[]]]]]];
      [exists T_doc|exists T_docx|exists T_xls|exists T_xlsx|exists T_pptx]; done.
  - intros [[] ->]; unfold valid_doc_types; simpl; set_solver.
Qed.

(** C7: once the input is a regular file, the output folder exists and
    the type normalises to a valid target, [pdf_to_documents] loads the
    PDF once and saves it once, at [<output>/<stem>.<type>] and with
    the options of that target (so the dispatch never falls through),
    returning [True]; any engine failure is printed and gives [False]. *)
Theorem pdf_to_documents_valid (input_path output_path doc_type : string)
    (t : doc_target) (w : world) :
  isfile_b (w_fs w) input_path = true -> exists_b (w_fs w) output_path = true ->
  normalize_type doc_type = doc_target_name t ->
  pdf_to_documents input_path output_path doc_type w =
  engine_report w ("Error convert " ++ input_path ++ ": ")%string
    (sum_bind (doc_load (w_fs w) input_path LoadPdf) (fun d =>
       doc_save (w_fs w) d
         (document_output_path input_path output_path (doc_target_name t))
         (doc_target_options t))).
Proof.
  intros Hf He Ht. unfold pdf_to_documents, is_file, path_exists.
  st_unfold. simpl. rewrite Hf. simpl. rewrite He. simpl. rewrite Ht. simpl.
  destruct t; unfold convert_document, pdf_to_doc, pdf_to_docx, pdf_to_xls,
    pdf_to_xlsx, pdf_to_pptx; simpl; engine_run.
Qed.

(** C12: a type that does not normalise to a valid target raises
    [InvalidDocTypeError] with the normalised string, not the one the
    caller passed, and changes nothing. *)
Theorem pdf_to_documents_invalid_type (input_path output_path doc_type : string) (w : world) :
  isfile_b (w_fs w) input_path = true -> exists_b (w_fs w) output_path = true ->
  PyStr.str_in (normalize_type doc_type) valid_doc_types = false ->
  pdf_to_documents input_path output_path doc_type w
  = (Raised (InvalidDocTypeError (normalize_type doc_type)), w).
Proof.
  intros Hf He Ht. unfold pdf_to_documents, is_file, path_exists.
  st_step. rewrite Hf. st_step. rewrite He. st_step. by rewrite Ht.
Qed.

(** C13: the output check is [os.path.exists], not a directory test:
    an existing regular file passes it, and the call returns a boolean
    instead of raising [NotADirectoryError]. *)
Theorem pdf_to_documents_file_as_folder (input_path output_path : string)
    (t : doc_target) (w : world) :
  isfile_b (w_fs w) input_path = true -> isfile_b (w_fs w) output_path = true ->
  exists b w', pdf_to_documents input_path output_path (doc_target_name t) w
               = (Normal b, w').
Proof.
  intros Hf Ho.
  assert (He : exists_b (w_fs w) output_path = true).
  { revert Ho. unfold isfile_b, exists_b. repeat case_match; done. }
  rewrite (pdf_to_documents_valid _ _ _ t) by (try done; by destruct t).
  unfold engine_report. case_match; eauto.
Qed.

End Ops.

(** ** Output naming *)

(** C16: the output path of [pdf_to_documents] (specification 4.2): for
    any input [<dir>/<stem>.<ext>] ([stem] without a slash and not all
    dots, [ext] without a slash or a dot) and an output folder written
    as ["/" + "/".join(comps)], the converted file is
    [<output>/<stem>.<type>]: only the last extension is replaced. *)
Theorem document_output_path_shape (dir stem ext : string) (comps : list string)
    (t : doc_target) :
  comps <> [] -> Forall (fun x => PurePath.simple_name x = true) comps ->
  PosixPath.has_char PosixPath.slash stem = false ->
  PosixPath.has_non_dot stem 0 (String.length stem) = true ->
  PosixPath.has_char PosixPath.slash ext = false -> PosixPath.has_char PosixPath.dot ext = false ->
  document_output_path (dir ++ "/" ++ stem ++ "." ++ ext)
    ("/" ++ PosixPath.join_with "/" comps) (doc_target_name t)
  = ("/" ++ PosixPath.join_with "/" comps ++ "/" ++ stem ++ "." ++ doc_target_name t)%string.
Proof.
  intros Hne Hc Hs Hnd He Hd. unfold document_output_path.
  rewrite PosixPath.splitext_basename by done.
  apply PurePath.div_to_str_normal; [done|done|].
  apply PurePath.simple_name_dotted; [done|by apply PurePath.has_non_dot_nonempty|by destruct t].
Qed.

(** ** Well-formedness is preserved *)
Section Preserve.
Context `{E : Engine} `{!EngineLaws}.

Lemma convert_document_wf t i o : preserves world_wf (convert_document t i o).
Proof.
  unfold convert_document, pdf_to_doc, pdf_to_docx, pdf_to_xls, pdf_to_xlsx, pdf_to_pptx.
  preserves_auto.
Qed.

Lemma pdf_to_documents_wf i o t : preserves world_wf (pdf_to_documents i o t).
Proof. unfold pdf_to_documents. pose proof convert_document_wf. preserves_auto. Qed.
End Preserve.

(** ** What a run may change

    Whatever the engine answers, [pdf_to_documents] leaves every entry
    other than the one [<output>/<stem>.<type>] resolves to as it was. *)
Section Frame.
Context `{E : Engine} `{!EngineLaws}.

Lemma pdf_to_documents_frame i o t w b :
  resolve (w_fs w) (document_output_path i o (normalize_type t)) <> inl b ->
  nodes (w_fs (snd (pdf_to_documents i o t w))) !! b = nodes (w_fs w) !! b.
Proof.
  intros Hb. unfold pdf_to_documents, is_file, path_exists, convert_document, pdf_to_doc,
    pdf_to_docx, pdf_to_xls, pdf_to_xlsx, pdf_to_pptx, ap_Document, save, print.
  frame_run.
Qed.
End Frame.

(** ** Witnesses, on the sample world *)
Import FakeEngine.

Example document_output_path_report :
  document_output_path "/in/report.pdf" "/out" "docx" = "/out/report.docx".
Proof. vm_compute. reflexivity. Qed.

Lemma document_output_path_shape_witness :
  ["out"%string] <> [] /\
  document_output_path "/in/my.report.pdf" "/out" "xlsx" = "/out/my.report.xlsx".
Proof.
  split; [done|].
  apply (document_output_path_shape "/in" "my.report" "pdf" ["out"] T_xlsx);
    try (vm_compute; reflexivity).
  - done.
  - constructor; [vm_compute; reflexivity|constructor].
Defined.

Lemma pdf_to_documents_valid_witness :
  isfile_b (w_fs sample) "/in/report.pdf" = true /\
  exists_b (w_fs sample) "/out" = true /\
  normalize_type " Docx	" = doc_target_name T_docx /\
  pdf_to_documents "/in/report.pdf" "/out" " Docx	" sample =
  engine_report sample "Error convert /in/report.pdf: "
    (sum_bind (doc_load (w_fs sample) "/in/report.pdf" LoadPdf) (fun d =>
       doc_save (w_fs sample) d "/out/report.docx" (doc_target_options T_docx))).
Proof.
  split; [vm_compute; reflexivity|]. split; [vm_compute; reflexivity|].
  split; [vm_compute; reflexivity|].
  rewrite <- document_output_path_report.
  apply (pdf_to_documents_valid "/in/report.pdf" "/out" " Docx	" T_docx sample);
    vm_compute; reflexivity.
Defined.

Lemma pdf_to_documents_invalid_type_witness :
  isfile_b (w_fs sample) "/in/report.pdf" = true /\
  exists_b (w_fs sample) "/out" = true /\
  PyStr.str_in (normalize_type " PDF ") valid_doc_types = false /\
  pdf_to_documents "/in/report.pdf" "/out" " PDF " sample
    = (Raised (InvalidDocTypeError "pdf"), sample).
Proof.
  split; [vm_compute; reflexivity|]. split; [vm_compute; reflexivity|].
  split; [vm_compute; reflexivity|].
  change "pdf"%string with (normalize_type " PDF ").
  apply pdf_to_documents_invalid_type; vm_compute; reflexivity.
Defined.

Lemma pdf_to_documents_file_as_folder_witness :
  isfile_b (w_fs sample) "/in/report.pdf" = true /\
  exists b w', pdf_to_documents "/in/report.pdf" "/in/report.pdf" "xlsx" sample
               = (Normal b, w').
Proof.
  split; [vm_compute; reflexivity|].
  apply (pdf_to_documents_file_as_folder "/in/report.pdf" "/in/report.pdf" T_xlsx sample);
    vm_compute; reflexivity.
Defined.

End Documents.

#[export] Hint Resolve Documents.convert_document_wf Documents.pdf_to_documents_wf : pdf.
