(* ===== verification/Images.v ===== *)
(** * Raster conversions: [convert_pdf_bmp] ... [convert_pdf_gif], [pdf_to_images]

    Lines 165-261 of [src/pdf_tool.py].  The five converters share one
    body, differing in the device and the extension: load the PDF, build
    a device at 300 DPI, and for [i in range(len(document.pages))] create
    [<prefix>_page_<i+1>_out.<ext>] exclusively ([io.FileIO(..., 'x')]),
    render page [i + 1] into it and close it.  [pdf_to_images] checks the
    input file, the output folder and the normalised type, takes
    [<output>/<stem>] as the prefix, and dispatches inside
    [try ... except Exception].

    The loop is proved page by page: [page_step_ok] is one successful
    iteration, [pages_loop_ok] the first [k] of them (induction on [k]),
    and the theorems on [pdf_to_images] follow: every page file written
    with the page's rendering and nothing else touched; a name that
    already exists stops the loop with the earlier files left in place;
    a rendering failure leaves its stream open; a document without
    pages writes nothing.  Also here: the general shape of the page
    names, and that no run changes an entry that existed before. *)

From stdpp Require Import base list strings gmap.
From Stdlib Require Import String Ascii ZArith Lia.
From Stdlib Require Import Init.Byte.
From S2P Require Import Prelude PyStr PyPath Errors PyOS Engine FakeEngine Validation.
Local Open Scope py_scope.

Module Images.
Import Errors PyOS Aspose Validation.

Section Ops.
Context `{E : Engine}.

(** [output_path + "_page_" + str(i + 1) + "_out.<ext>"] *)
Definition page_file_name (output_path : string) (i : nat) (ext : string) : string :=
  (output_path ++ "_page_" ++ PyStr.str_of_nat (i + 1) ++ "_out." ++ ext)%string.

(** One iteration of the page loop (lines 171-176 and their copies). *)
Definition page_body (device : Device) (ext : string) (document : Document)
    (output_path : string) (i : nat) : M unit :=
  let* imageStream := fileio_x (page_file_name output_path i ext) in
  let* pg := page_at document (i + 1) in
  process device pg imageStream ;;
  stream_close imageStream.

(** The body shared by the five converters (lines 166-176 for bmp). *)
Definition convert_pdf_pages (kind : DeviceKind) (ext : string)
    (input_path output_path : string) : M unit :=
  let* document := ap_Document input_path LoadPdf in
  let resolution := 300%Z in
  let device := mkDevice kind resolution in
  st_for (seq 0 (List.length (doc_pages document)))
    (page_body device ext document output_path).

(** [convert_pdf_bmp] (lines 166-176) *)
Definition convert_pdf_bmp := convert_pdf_pages BmpDevice "bmp".
(** [convert_pdf_emf] (lines 179-189) *)
Definition convert_pdf_emf := convert_pdf_pages EmfDevice "emf".
(** [convert_pdf_jpg] (lines 192-202): the extension is ["jpeg"]. *)
Definition convert_pdf_jpg := convert_pdf_pages JpegDevice "jpeg".
(** [convert_pdf_png] (lines 205-215) *)
Definition convert_pdf_png := convert_pdf_pages PngDevice "png".
(** [convert_pdf_gif] (lines 218-229) *)
Definition convert_pdf_gif := convert_pdf_pages GifDevice "gif".

(** The [if img_type == ...: elif ...] chain of lines 248-257. *)
Definition convert_image (img_type input_path output_path : string) : M unit :=
  if String.eqb img_type "bmp" then convert_pdf_bmp input_path output_path
  else if String.eqb img_type "emf" then convert_pdf_emf input_path output_path
  else if String.eqb img_type "jpg" then convert_pdf_jpg input_path output_path
  else if String.eqb img_type "png" then convert_pdf_png input_path output_path
  else if String.eqb img_type "gif" then convert_pdf_gif input_path output_path
  else st_ret tt.

(** [str(Path(output_path) / filename)] (lines 244-245) *)
Definition image_output_prefix (input_path output_path : string) : string :=
  let '(filename, extension) := PosixPath.splitext (PosixPath.basename input_path) in
  PurePath.to_str (PurePath.div (PurePath.parse output_path) filename).

(** [pdf_to_images] (lines 232-261) *)
Definition pdf_to_images (input_path output_path img_type : string) : M bool :=
  let* f := is_file input_path in
  if negb f then st_raise (FileExistsError (missing_file_msg input_path)) else
  let* ex := path_exists output_path in
  if negb ex then st_raise (NotADirectoryError (missing_folder_msg output_path)) else
  let img_type := normalize_type img_type in
  if negb (PyStr.str_in img_type valid_img_types)
  then st_raise (InvalidImgTypeError img_type) else
  let output_path := image_output_prefix input_path output_path in
  st_try
    (convert_image img_type input_path output_path ;; st_ret true)
    (fun e =>
       print ("Error convert " ++ input_path ++ ": " ++ exc_str e)%string ;;
       st_ret false).

End Ops.

(** ** Page names *)

(** C5: the loop's file names are pairwise distinct: page [i] is named
    by [str(i + 1)], and that decimal rendering is injective, so no two
    pages of one conversion compete for the same exclusive name. *)
Theorem page_file_names_distinct (output_path ext : string) (n : nat) :
  NoDup ((fun i => page_file_name output_path i ext) <$> seq 0 n).
Proof.
  apply NoDup_fmap_2; [|apply NoDup_seq].
  intros i j H. unfold page_file_name in H.
  apply string_app_inv_head in H. rewrite !string_app_cons in H.
  repeat (injection H as H).
  rewrite !string_app_nil_l in H. apply string_app_inv_tail in H. apply PyStr.str_of_nat_inj in H. lia.
Qed.

(** C17: the page file names of [pdf_to_images] (specification 4.2):
    for any input [<dir>/<stem>.<ext>] ([stem] without a slash and not
    all dots, [ext] without a slash or a dot) and an output folder
    written as ["/" + "/".join(comps)], page [i + 1] is written to
    [<output>/<stem>_page_<i + 1>_out.<extension of the target>]. *)
Theorem page_output_name_shape (dir stem ext : string) (comps : list string)
    (t_ext : string) (i : nat) :
  comps <> [] -> Forall (fun x => PurePath.simple_name x = true) comps ->
  PosixPath.has_char PosixPath.slash stem = false ->
  PosixPath.has_non_dot stem 0 (String.length stem) = true ->
  PosixPath.has_char PosixPath.slash ext = false -> PosixPath.has_char PosixPath.dot ext = false ->
  page_file_name (image_output_prefix (dir ++ "/" ++ stem ++ "." ++ ext)
                    ("/" ++ PosixPath.join_with "/" comps)) i t_ext
  = ("/" ++ PosixPath.join_with "/" comps ++ "/" ++ stem ++ "_page_"
     ++ PyStr.str_of_nat (i + 1) ++ "_out." ++ t_ext)%string.
Proof.
  intros Hne Hc Hs Hnd He Hd. unfold page_file_name, image_output_prefix.
  rewrite PosixPath.splitext_basename by done.
  rewrite PurePath.div_to_str_normal by (try done; by apply PurePath.simple_name_stem).
  by rewrite <- !string_app_assoc.
Qed.

(** ** The page loop *)
Section Loop.
Context `{E : Engine}.
Context (device : Device) (ext : string) (document : Document) (output_path : string).

(** The bytes the device writes for a page. *)
Definition rendered (pg : Page) : list byte := fst (device_process device pg).

(** The name of page [i] resolves to [a], nothing is there yet, and its
    parent is a directory. *)
Definition page_target_ok (f : fs) (i : nat) (a : list string) : Prop :=
  resolve f (page_file_name output_path i ext) = inl a /\
  nodes f !! a = None /\ nodes f !! removelast a = Some Dir.

(** The targets [ps] of all pages are fresh in world [w], distinct and
    not open. *)
Definition pages_fresh (w : world) (ps : list (list string)) : Prop :=
  NoDup ps /\
  forall i a, ps !! i = Some a -> page_target_ok (w_fs w) i a /\ a ∉ w_open w.

(** The files the first [k] iterations write. *)
Definition page_writes (ps : list (list string)) (k : nat) : list (list string * list byte) :=
  zip (take k ps) (take k (rendered <$> doc_pages document)).

Definition after_pages (w : world) (ps : list (list string)) (k : nat) : world :=
  mkWorld (mkFS (cwd (w_fs w)) (write_files (nodes (w_fs w)) (page_writes ps k)))
    (w_open w) (w_stdout w).

(** One successful iteration. *)
Lemma page_step_ok (w : world) (i : nat) (a : list string) (pg : Page) :
  page_target_ok (w_fs w) i a -> a ∉ w_open w ->
  doc_pages document !! i = Some pg -> snd (device_process device pg) = None ->
  page_body device ext document output_path i w =
  (Normal tt, mkWorld (mkFS (cwd (w_fs w)) (<[a := File (rendered pg)]> (nodes (w_fs w))))
                (w_open w) (w_stdout w)).
Proof.
  intros (Hr & Ha & Hp) Ho Hpg Hok. unfold page_body.
  rewrite (st_bind_normal _ _ _ _ _ (fileio_x_fresh _ _ _ Hr Ha Hp)).
  unfold page_at. rewrite (proj2 (Nat.leb_le 1 (i + 1))) by lia.
  replace (i + 1 - 1)%nat with i by lia. rewrite Hpg.
  unfold st_bind at 1, st_ret at 1.
  unfold process, rendered. destruct (device_process device pg) as [bs err] eqn:Hd.
  simpl in Hok. subst err. unfold st_bind. rewrite stream_write_created.
  unfold st_ret. by rewrite stream_close_fresh.
Qed.

Lemma page_writes_keys ps k :
  k <= List.length ps -> k <= List.length (doc_pages document) ->
  (page_writes ps k).*1 = take k ps.
Proof.
  intros H1 H2. unfold page_writes. apply fst_zip.
  rewrite !length_take, length_fmap. lia.
Qed.

Lemma page_writes_S ps k a pg :
  ps !! k = Some a -> doc_pages document !! k = Some pg ->
  page_writes ps (S k) = page_writes ps k ++ [(a, rendered pg)].
Proof.
  intros Ha Hpg. unfold page_writes.
  rewrite (take_S_r ps k a) by done.
  rewrite (take_S_r (rendered <$> doc_pages document) k (rendered pg))
    by (by rewrite list_lookup_fmap, Hpg).
  rewrite (zip_with_app pair); [done|]. rewrite !length_take, length_fmap.
  apply lookup_lt_Some in Ha, Hpg. lia.
Qed.

(** After [k] iterations, page [k]'s target is still fresh. *)
(** What the first [k] iterations wrote leaves every earlier entry
    and directory as it was, outside the [k] targets. *)
Lemma after_pages_keep w ps k b :
  k <= List.length ps -> k <= List.length (doc_pages document) -> b ∉ take k ps ->
  nodes (w_fs (after_pages w ps k)) !! b = nodes (w_fs w) !! b.
Proof. intros H1 H2 Hb. apply write_files_other. by rewrite page_writes_keys. Qed.

(** An entry that exists in [w] is none of the fresh targets. *)
Lemma fresh_not_taken w ps k b :
  pages_fresh w ps -> nodes (w_fs w) !! b <> None -> b ∉ take k ps.
Proof.
  intros [_ Hf] Hb Hin. apply elem_of_take in Hin as (j & Hj & _).
  destruct (Hf j b Hj) as [(_ & Hb' & _) _]. congruence.
Qed.

(** Paths resolve after the first [k] iterations as they did before. *)
Lemma after_pages_resolve w ps k p r :
  k <= List.length ps -> k <= List.length (doc_pages document) -> pages_fresh w ps ->
  resolve (w_fs w) p = inl r -> resolve (w_fs (after_pages w ps k)) p = inl r.
Proof.
  intros H1 H2 Hfr Hr. apply (resolve_keep_dirs (w_fs w)); [done| |done].
  intros b Hb. rewrite after_pages_keep; [done|lia|lia|].
  apply (fresh_not_taken w); [done|congruence].
Qed.

Lemma after_pages_target_ok w ps k a :
  k <= List.length (doc_pages document) -> pages_fresh w ps -> ps !! k = Some a ->
  page_target_ok (w_fs (after_pages w ps k)) k a.
Proof.
  intros Hl Hfr Hk. pose proof Hfr as [Hnd Hf].
  destruct (Hf k a Hk) as [(Hr & Ha & Hp) _].
  assert (Hkps : k <= List.length ps) by (apply lookup_lt_Some in Hk; lia).
  pose proof (after_pages_keep w ps k) as Hkeep. simpl in Hkeep.
  split; [|split].
  - by apply after_pages_resolve.
  - simpl. rewrite Hkeep; [done|lia|lia|]. intros Hin. apply elem_of_take in Hin as (j & Hj & Hjk).
    pose proof (NoDup_lookup ps j k a Hnd Hj Hk). lia.
  - simpl. rewrite Hkeep; [done|lia|lia|].
    apply (fresh_not_taken w); [done|congruence].
Qed.

(** The first [k] iterations all succeed and write exactly their pages. *)
Lemma pages_loop_ok (w : world) (ps : list (list string)) (k : nat) :
  k <= List.length (doc_pages document) -> k <= List.length ps ->
  pages_fresh w ps ->
  (forall i pg, i < k -> doc_pages document !! i = Some pg ->
                snd (device_process device pg) = None) ->
  st_for (seq 0 k) (page_body device ext document output_path) w
  = (Normal tt, after_pages w ps k).
Proof.
  intros Hk Hl Hfr Hok. induction k as [|k IH].
  - destruct w as [[c ns] o out]. reflexivity.
  - rewrite seq_S, st_for_app.
    rewrite (st_bind_normal _ _ _ _ _ (IH ltac:(lia) ltac:(lia) (fun i pg Hi => Hok i pg ltac:(lia)))).
    destruct (lookup_lt_is_Some_2 ps k) as [a Ha]; [lia|].
    destruct (lookup_lt_is_Some_2 (doc_pages document) k) as [pg Hpg]; [lia|].
    simpl. rewrite (st_bind_normal _ _ _ _ _ (page_step_ok _ k a pg
      (after_pages_target_ok w ps k a ltac:(lia) Hfr Ha)
      (proj2 (proj2 Hfr k a Ha))
      Hpg (Hok k pg ltac:(lia) Hpg))).
    unfold after_pages. simpl. by rewrite (page_writes_S ps k a pg), write_files_snoc.
Qed.

Lemma page_writes_lookup ps k i a pg :
  i < k -> ps !! i = Some a -> doc_pages document !! i = Some pg ->
  page_writes ps k !! i = Some (a, rendered pg).
Proof.
  intros Hi Ha Hpg. unfold page_writes.
  rewrite (lookup_zip_with pair), !lookup_take_lt by done.
  by rewrite Ha, list_lookup_fmap, Hpg.
Qed.

(** After all [n] iterations: each target holds its page, the rest is
    as before. *)
Lemma after_pages_lookup w ps n :
  n = List.length ps -> n = List.length (doc_pages document) -> NoDup ps ->
  (forall i a pg, ps !! i = Some a -> doc_pages document !! i = Some pg ->
     nodes (w_fs (after_pages w ps n)) !! a = Some (File (rendered pg))) /\
  (forall b, b ∉ ps -> nodes (w_fs (after_pages w ps n)) !! b = nodes (w_fs w) !! b).
Proof.
  intros H1 H2 Hnd. split.
  - intros i a pg Ha Hpg. apply write_files_in.
    + rewrite page_writes_keys, take_ge by lia. done.
    + apply list_elem_of_lookup_2 with i. apply page_writes_lookup; [|done..].
      apply lookup_lt_Some in Ha. lia.
  - intros b Hb. apply after_pages_keep; [lia|lia|]. by rewrite take_ge by lia.
Qed.

(** Page [k]'s name is taken: [io.FileIO(..., 'x')] raises, nothing
    changes. *)
Lemma page_step_exists (w : world) (k : nat) (a : list string) (n : node) :
  resolve (w_fs w) (page_file_name output_path k ext) = inl a ->
  nodes (w_fs w) !! a = Some n ->
  page_body device ext document output_path k w
  = (Raised (FileExistsError (errno_msg 17 "File exists"
                                (page_file_name output_path k ext))), w).
Proof.
  intros Hr Ha. unfold page_body.
  by rewrite (st_bind_raised _ _ _ _ _ (fileio_x_exists _ _ _ _ Hr Ha)).
Qed.

(** Page [k]'s rendering fails after writing [bs]: the file keeps the
    bytes and its stream is still open when the exception leaves. *)
Lemma page_step_fail (w : world) (k : nat) (a : list string) (pg : Page) bs m :
  page_target_ok (w_fs w) k a ->
  doc_pages document !! k = Some pg -> device_process device pg = (bs, Some m) ->
  page_body device ext document output_path k w =
  (Raised (EngineError m),
   mkWorld (mkFS (cwd (w_fs w)) (<[a := File bs]> (nodes (w_fs w))))
     (a :: w_open w) (w_stdout w)).
Proof.
  intros (Hr & Ha & Hp) Hpg Hd. unfold page_body.
  rewrite (st_bind_normal _ _ _ _ _ (fileio_x_fresh _ _ _ Hr Ha Hp)).
  unfold page_at. rewrite (proj2 (Nat.leb_le 1 (k + 1))) by lia.
  replace (k + 1 - 1)%nat with k by lia. rewrite Hpg.
  unfold st_bind at 1, st_ret at 1. unfold process. rewrite Hd.
  unfold st_bind. by rewrite stream_write_created.
Qed.

End Loop.

(** ** The image targets

    The closed set of [valid_img_types] as an enumeration, with the
    device and the file extension each one uses. *)
Inductive img_target : Type := I_bmp | I_emf | I_jpg | I_png | I_gif.

Definition img_target_name (t : img_target) : string :=
  match t with
  | I_bmp => "bmp" | I_emf => "emf" | I_jpg => "jpg" | I_png => "png" | I_gif => "gif"
  end.

Definition img_target_device (t : img_target) : DeviceKind :=
  match t with
  | I_bmp => BmpDevice | I_emf => EmfDevice | I_jpg => JpegDevice
  | I_png => PngDevice | I_gif => GifDevice
  end.

Definition img_target_ext (t : img_target) : string :=
  match t with
  | I_bmp => "bmp" | I_emf => "emf" | I_jpg => "jpeg" | I_png => "png" | I_gif => "gif"
  end.

Lemma valid_img_type_target (s : string) :
  PyStr.str_in s valid_img_types = true <-> exists t, s = img_target_name t.
Proof.
  rewrite PyStr.str_in_spec. split.
  - unfold valid_img_types. rewrite !elem_of_cons, elem_of_nil.
    intros [->|[->|[->|[->|[->|[]]]]]];
      [exists I_bmp|exists I_emf|exists I_jpg|exists I_png|exists I_gif]; done.
  - intros [[] ->]; unfold valid_img_types; simpl; set_solver.
Qed.

Section Top.
Context `{E : Engine}.

(** Once the three checks pass, [pdf_to_images] is the converter of
    the target under the [try] block. *)
Lemma pdf_to_images_checked (input_path output_path img_type : string)
    (t : img_target) (w : world) :
  isfile_b (w_fs w) input_path = true -> exists_b (w_fs w) output_path = true ->
  normalize_type img_type = img_target_name t ->
  pdf_to_images input_path output_path img_type w =
  st_try
    (convert_pdf_pages (img_target_device t) (img_target_ext t) input_path
       (image_output_prefix input_path output_path) ;; st_ret true)
    (fun e =>
       print ("Error convert " ++ input_path ++ ": " ++ exc_str e)%string ;;
       st_ret false) w.
Proof.
  intros Hf He Ht. unfold pdf_to_images, is_file, path_exists.
  st_step. rewrite Hf. st_step. rewrite He. st_step. rewrite Ht.
  by destruct t.
Qed.

Lemma convert_pdf_pages_loaded kind ext input_path prefix (w : world) d :
  doc_load (w_fs w) input_path LoadPdf = inl d ->
  convert_pdf_pages kind ext input_path prefix w =
  st_for (seq 0 (List.length (doc_pages d)))
    (page_body (mkDevice kind 300) ext d prefix) w.
Proof.
  intros Hd. unfold convert_pdf_pages, ap_Document. st_unfold. simpl. by rewrite Hd.
Qed.

(** C2: once the checks pass and the engine loads a document of [n]
    pages, if the [n] page names resolve to fresh, distinct targets
    [ps] in existing directories and every page renders,
    [pdf_to_images] returns [True]; target [i] then holds the device's
    rendering of page [i + 1], nothing else on disk changed, every
    stream was closed and nothing was printed. *)
Theorem pdf_to_images_success (input_path output_path img_type : string)
    (t : img_target) (w : world) (d : Document) (ps : list (list string)) :
  let dev := mkDevice (img_target_device t) 300 in
  let prefix := image_output_prefix input_path output_path in
  isfile_b (w_fs w) input_path = true -> exists_b (w_fs w) output_path = true ->
  normalize_type img_type = img_target_name t ->
  doc_load (w_fs w) input_path LoadPdf = inl d ->
  List.length ps = List.length (doc_pages d) ->
  pages_fresh (img_target_ext t) prefix w ps ->
  (forall pg, pg ∈ doc_pages d -> snd (device_process dev pg) = None) ->
  exists w',
    pdf_to_images input_path output_path img_type w = (Normal true, w') /\
    w_open w' = w_open w /\ w_stdout w' = w_stdout w /\
    (forall i a pg, ps !! i = Some a -> doc_pages d !! i = Some pg ->
       nodes (w_fs w') !! a = Some (File (rendered dev pg))) /\
    (forall b, b ∉ ps -> nodes (w_fs w') !! b = nodes (w_fs w) !! b).
Proof.
  intros dev prefix Hf He Ht Hd Hl Hfr Hok.
  rewrite (pdf_to_images_checked _ _ _ t) by done.
  set (n := List.length (doc_pages d)).
  assert (Hloop : st_bind (convert_pdf_pages (img_target_device t) (img_target_ext t)
                     input_path prefix) (fun _ => st_ret true) w
                  = (Normal true, after_pages dev d w ps n)).
  { rewrite (st_bind_normal _ _ _ tt (after_pages dev d w ps n)); [done|].
    rewrite (convert_pdf_pages_loaded _ _ _ _ _ d) by done.
    apply pages_loop_ok; [lia|lia|done|].
    intros i pg _ Hpg. apply Hok. by eapply list_elem_of_lookup_2. }
  rewrite (st_try_normal _ _ _ _ _ Hloop).
  exists (after_pages dev d w ps n). do 3 (split; [done|]).
  apply after_pages_lookup; [lia|done|apply Hfr].
Qed.

(** C3: when page [k]'s name already exists (the earlier [k] names
    being fresh targets [ps] whose pages render), the exclusive
    creation fails: [pdf_to_images] returns [False] and prints the
    [FileExistsError], and the [k] files already written stay. *)
Theorem pdf_to_images_existing_page (input_path output_path img_type : string)
    (t : img_target) (w : world) (d : Document) (ps : list (list string))
    (k : nat) (a : list string) (n0 : node) :
  let dev := mkDevice (img_target_device t) 300 in
  let prefix := image_output_prefix input_path output_path in
  let name := page_file_name prefix k (img_target_ext t) in
  isfile_b (w_fs w) input_path = true -> exists_b (w_fs w) output_path = true ->
  normalize_type img_type = img_target_name t ->
  doc_load (w_fs w) input_path LoadPdf = inl d ->
  k < List.length (doc_pages d) -> List.length ps = k ->
  pages_fresh (img_target_ext t) prefix w ps ->
  (forall i pg, i < k -> doc_pages d !! i = Some pg -> snd (device_process dev pg) = None) ->
  resolve (w_fs w) name = inl a -> nodes (w_fs w) !! a = Some n0 ->
  pdf_to_images input_path output_path img_type w =
  (Normal false,
   log_line (after_pages dev d w ps k)
     ("Error convert " ++ input_path ++ ": " ++ errno_msg 17 "File exists" name)%string).
Proof.
  intros dev prefix name Hf He Ht Hd Hk Hl Hfr Hok Hr Ha.
  rewrite (pdf_to_images_checked _ _ _ t) by done.
  assert (Hna : a ∉ take k ps)
    by (apply (fresh_not_taken (img_target_ext t) prefix w); [done|congruence]).
  assert (Hloop : st_bind (convert_pdf_pages (img_target_device t) (img_target_ext t)
                     input_path prefix) (fun _ => st_ret true) w
                  = (Raised (FileExistsError (errno_msg 17 "File exists" name)),
                     after_pages dev d w ps k)).
  { apply st_bind_raised.
    rewrite (convert_pdf_pages_loaded _ _ _ _ _ d) by done.
    replace (List.length (doc_pages d)) with (k + S (List.length (doc_pages d) - k - 1))%nat
      by lia.
    rewrite seq_app, st_for_app.
    rewrite (st_bind_normal _ _ _ _ _
               (pages_loop_ok dev (img_target_ext t) d prefix w ps k
                  ltac:(lia) ltac:(lia) Hfr Hok)).
    cbn [seq st_for]. apply st_bind_raised.
    apply (page_step_exists dev (img_target_ext t) d prefix _ k a n0).
    - apply (after_pages_resolve dev (img_target_ext t) d prefix w ps k); [lia|lia|done|done].
    - rewrite after_pages_keep; [done|lia|lia|done]. }
  rewrite (st_try_raised _ _ _ _ _ Hloop).
  unfold print, log_line. st_unfold. simpl. by rewrite <- ?string_app_assoc.
Qed.

(** C4: when the device fails on page [k] (after writing [bs]) while
    the earlier pages succeed, [pdf_to_images] returns [False] and
    prints the engine's message; page [k]'s file holds [bs] and its
    [FileIO] stream is still open, since [imageStream.close()] is
    skipped by the exception and nothing closes it. *)
Theorem pdf_to_images_render_failure (input_path output_path img_type : string)
    (t : img_target) (w : world) (d : Document) (ps : list (list string))
    (k : nat) (a : list string) (pg : Page) (bs : list byte) (m : string) :
  let dev := mkDevice (img_target_device t) 300 in
  let prefix := image_output_prefix input_path output_path in
  isfile_b (w_fs w) input_path = true -> exists_b (w_fs w) output_path = true ->
  normalize_type img_type = img_target_name t ->
  doc_load (w_fs w) input_path LoadPdf = inl d ->
  doc_pages d !! k = Some pg -> device_process dev pg = (bs, Some m) ->
  List.length ps = S k -> ps !! k = Some a ->
  pages_fresh (img_target_ext t) prefix w ps ->
  (forall i pg', i < k -> doc_pages d !! i = Some pg' -> snd (device_process dev pg') = None) ->
  exists w',
    pdf_to_images input_path output_path img_type w = (Normal false, w') /\
    w_open w' = a :: w_open w /\
    nodes (w_fs w') !! a = Some (File bs) /\
    w_stdout w' = w_stdout w ++ [("Error convert " ++ input_path ++ ": " ++ m)%string].
Proof.
  intros dev prefix Hf He Ht Hd Hpg Hdp Hl Ha Hfr Hok.
  rewrite (pdf_to_images_checked _ _ _ t) by done.
  assert (Hk : k < List.length (doc_pages d)) by (by apply lookup_lt_Some in Hpg).
  set (wk := after_pages dev d w ps k).
  set (w1 := mkWorld (mkFS (cwd (w_fs wk)) (<[a := File bs]> (nodes (w_fs wk))))
               (a :: w_open wk) (w_stdout wk)).
  assert (Hloop : st_bind (convert_pdf_pages (img_target_device t) (img_target_ext t)
                     input_path prefix) (fun _ => st_ret true) w
                  = (Raised (EngineError m), w1)).
  { apply st_bind_raised.
    rewrite (convert_pdf_pages_loaded _ _ _ _ _ d) by done.
    replace (List.length (doc_pages d)) with (k + S (List.length (doc_pages d) - k - 1))%nat
      by lia.
    rewrite seq_app, st_for_app.
    rewrite (st_bind_normal _ _ _ _ _
               (pages_loop_ok dev (img_target_ext t) d prefix w ps k
                  ltac:(lia) ltac:(lia) Hfr Hok)).
    cbn [seq st_for]. apply st_bind_raised.
    apply (page_step_fail dev (img_target_ext t) d prefix wk k a pg bs m); [|done|done].
    by apply after_pages_target_ok; [lia| |]. }
  rewrite (st_try_raised _ _ _ _ _ Hloop).
  eexists. split; [reflexivity|]. simpl. split; [done|]. split.
  - apply lookup_insert_eq.
  - by rewrite <- ?string_app_assoc.
Qed.

(** C18: a document with no pages (a case the specification leaves
    open): the page loop runs zero times and [pdf_to_images] returns
    [True] having written nothing, the world unchanged. *)
Theorem pdf_to_images_no_pages (input_path output_path img_type : string)
    (t : img_target) (w : world) (d : Document) :
  isfile_b (w_fs w) input_path = true -> exists_b (w_fs w) output_path = true ->
  normalize_type img_type = img_target_name t ->
  doc_load (w_fs w) input_path LoadPdf = inl d -> doc_pages d = [] ->
  pdf_to_images input_path output_path img_type w = (Normal true, w).
Proof.
  intros Hf He Ht Hd H0. rewrite (pdf_to_images_checked _ _ _ t) by done.
  apply st_try_normal. rewrite (st_bind_normal _ _ _ tt w); [done|].
  by rewrite (convert_pdf_pages_loaded _ _ _ _ _ d), H0.
Qed.

End Top.

(** ** Well-formedness is preserved *)
Section Preserve.
Context `{E : Engine} `{!EngineLaws}.

Lemma convert_pdf_pages_wf kind ext i o : preserves world_wf (convert_pdf_pages kind ext i o).
Proof. unfold convert_pdf_pages, page_body. preserves_auto. Qed.

Lemma pdf_to_images_wf i o t : preserves world_wf (pdf_to_images i o t).
Proof.
  unfold pdf_to_images, convert_image, convert_pdf_bmp, convert_pdf_emf, convert_pdf_jpg,
    convert_pdf_png, convert_pdf_gif.
  pose proof convert_pdf_pages_wf. preserves_auto.
Qed.
End Preserve.

(** ** Existing entries are never touched

    The page files are created with [io.FileIO(..., 'x')], so whatever
    the engine does, no entry that existed before is changed or
    removed. *)
Section Frame.
Context `{E : Engine}.

Lemma page_body_keeps f0 device ext document output_path i :
  preserves (keeps f0) (page_body device ext document output_path i).
Proof.
  intros w Hk. unfold page_body, st_bind at 1.
  destruct (fileio_x _ w) as [[s|e] w1] eqn:Hx.
  - apply fileio_x_created in Hx as [Hs ->].
    assert (Hs0 : nodes f0 !! stream_path s = None).
    { destruct (nodes f0 !! stream_path s) as [n|] eqn:Hn; [|done].
      specialize (Hk _ n Hn). congruence. }
    assert (Hrest : preserves (keeps f0)
      (let* pg := page_at document (i + 1) in process device pg s ;; stream_close s)).
    { unfold page_at. pose proof (process_keeps f0). preserves_auto. }
    exact (Hrest _ (create_file_keeps f0 w _ Hk Hs)).
  - by apply fileio_x_raised in Hx as ->.
Qed.

Lemma pdf_to_images_keeps f0 i o t : preserves (keeps f0) (pdf_to_images i o t).
Proof.
  unfold pdf_to_images, convert_image, convert_pdf_bmp, convert_pdf_emf, convert_pdf_jpg,
    convert_pdf_png, convert_pdf_gif, convert_pdf_pages, is_file, path_exists, ap_Document,
    page_at.
  pose proof page_body_keeps. preserves_auto.
Qed.
End Frame.

(** ** Witnesses, on the sample world *)
Import FakeEngine.

Definition out_page (i : nat) (ext : string) : list string :=
  ["out"; "report_page_" ++ PyStr.str_of_nat i ++ "_out." ++ ext]%string.

(** The sample with page 2's PNG name already taken. *)
Definition sample_taken : world :=
  mkWorld (mkFS [] (<[out_page 2 "png" := File []]> (nodes sample_fs))) [] [].

Lemma pdf_to_images_success_witness :
  exists w',
    pdf_to_images "/in/report.pdf" "/out" "png" sample = (Normal true, w') /\
    w_open w' = [] /\ w_stdout w' = [] /\
    (forall i a pg, [out_page 1 "png"; out_page 2 "png"; out_page 3 "png"] !! i = Some a ->
       [[x01]; [x02]; [x03]] !! i = Some pg ->
       nodes (w_fs w') !! a = Some (File (rendered (mkDevice PngDevice 300) pg))) /\
    (forall b, b ∉ [out_page 1 "png"; out_page 2 "png"; out_page 3 "png"] ->
       nodes (w_fs w') !! b = nodes (w_fs sample) !! b).
Proof.
  apply (@pdf_to_images_success fake_engine "/in/report.pdf" "/out" "png" I_png sample
           [[x01]; [x02]; [x03]]); try (vm_compute; reflexivity).
  split.
  - apply (bool_decide_unpack _). vm_compute. reflexivity.
  - intros [|[|[|i]]] a H; simpl in H; try discriminate; injection H as <-;
      (split; [split; [|split]; vm_compute; reflexivity | apply not_elem_of_nil]).
Defined.

Lemma pdf_to_images_existing_page_witness :
  pdf_to_images "/in/report.pdf" "/out" "png" sample_taken =
  (Normal false,
   log_line (after_pages (mkDevice PngDevice 300) [[x01]; [x02]; [x03]] sample_taken
               [out_page 1 "png"] 1)
     ("Error convert /in/report.pdf: " ++
      errno_msg 17 "File exists" "/out/report_page_2_out.png")%string).
Proof.
  apply (@pdf_to_images_existing_page fake_engine "/in/report.pdf" "/out" "png" I_png sample_taken
           [[x01]; [x02]; [x03]] [out_page 1 "png"] 1 (out_page 2 "png") (File []));
    try (vm_compute; reflexivity); try (simpl; lia).
  - split.
    + apply NoDup_singleton.
    + intros [|i] a H; simpl in H; try discriminate; injection H as <-.
      split; [split; [|split]; vm_compute; reflexivity | apply not_elem_of_nil].
Defined.

Lemma pdf_to_images_render_failure_witness :
  exists w',
    @pdf_to_images flaky_engine "/in/report.pdf" "/out" "png" sample = (Normal false, w') /\
    w_open w' = [out_page 2 "png"] /\
    nodes (w_fs w') !! out_page 2 "png" = Some (File [x02]) /\
    w_stdout w' = ["Error convert /in/report.pdf: render failed"%string].
Proof.
  apply (@pdf_to_images_render_failure flaky_engine "/in/report.pdf" "/out" "png" I_png sample
           [[x01]; [x02]; [x03]] [out_page 1 "png"; out_page 2 "png"] 1 (out_page 2 "png")
           [x02] [x02] "render failed"); try (vm_compute; reflexivity).
  - split.
    + apply (bool_decide_unpack _). vm_compute. reflexivity.
    + intros [|[|i]] a H; simpl in H; try discriminate; injection H as <-;
        (split; [split; [|split]; vm_compute; reflexivity | apply not_elem_of_nil]).
  - intros [|i] pg Hi H; [|lia]. simpl in H. injection H as <-. reflexivity.
Defined.

Lemma page_output_name_shape_witness :
  ["out"%string] <> [] /\
  page_file_name (image_output_prefix "/in/report.pdf" "/out") 1 (img_target_ext I_png)
  = "/out/report_page_2_out.png".
Proof.
  split; [done|].
  apply (page_output_name_shape "/in" "report" "pdf" ["out"] "png" 1);
    try (vm_compute; reflexivity).
  - done.
  - constructor; [vm_compute; reflexivity|constructor].
Defined.

(** The sample with an empty [/in/empty.pdf]. *)
Definition sample_empty : world :=
  mkWorld (mkFS [] (<[["in"; "empty.pdf"] := File []]> (nodes sample_fs))) [] [].

Lemma pdf_to_images_no_pages_witness :
  doc_load (w_fs sample_empty) "/in/empty.pdf" LoadPdf = inl [] /\
  pdf_to_images "/in/empty.pdf" "/out" "gif" sample_empty = (Normal true, sample_empty).
Proof.
  split; [vm_compute; reflexivity|].
  apply (@pdf_to_images_no_pages fake_engine "/in/empty.pdf" "/out" "gif" I_gif sample_empty []);
    vm_compute; reflexivity.
Defined.

End Images.

#[export] Hint Resolve Images.convert_pdf_pages_wf Images.pdf_to_images_wf : pdf.
